(** * A book recommender over a user-rating matrix

    Shallow embedding of [recomendation.py]: the preparation pipeline
    ([BookRecommender._load_and_process_data]), the training step
    ([_train_model]) and the query ([get_recommendations]).

    Modelling conventions.
    - A pandas table is a list of rows; a [DataFrame] carries its row
      labels, its column labels and its cells.
    - Numbers that the source holds in floating point are rationals
      ([Q]); rounding is not modelled.
    - Python exceptions are the constructors of [exn]; a call that may
      raise returns a [result].  Every [except] clause of the source logs
      and re-raises, so it is the identity on results; logging is not
      modelled.
    - The files are given by a [Disk], which maps a path to what
      [pd.read_csv] yields for it. *)

From Stdlib Require Import String Ascii ZArith QArith Bool Lia.
From Stdlib Require Import Arith PeanoNat List Permutation Sorted.
Import ListNotations.

Close Scope Q_scope.
Set Implicit Arguments.

(** ** Exceptions and results *)

Inductive exn : Type :=
| FileNotFoundError (path : string)
| ReadError (path : string) (what : string)
    (* any other exception of pd.read_csv, with its text: an
       EmptyDataError, a parser error, the ValueError of a field that
       does not fit its dtype *)
| LengthMismatch (expected got : nat)
    (* ValueError of the index setter: new labels of another length *)
| DataNotLoaded
    (* ValueError of _train_model: books_data is None *)
| EmptyArray (n_samples n_features : nat)
    (* ValueError of fit: an array with no sample or no feature *)
| ModelNotTrained
    (* RuntimeError of get_recommendations: model is None *)
| BookNotFound (book_title : string)
    (* ValueError of get_recommendations naming the missing title *)
| NonPositiveNeighbors (n_neighbors : Z)
    (* ValueError of kneighbors: Expected n_neighbors > 0 *)
| FeatureMismatch (got expected : nat)
    (* ValueError of kneighbors: X has [got] features, [expected] expected *)
| TooManyNeighbors (n_neighbors : Z) (n_samples_fit : nat)
    (* ValueError of kneighbors: Expected n_neighbors <= n_samples_fit *)
| AttributeError
    (* attribute access on None *)
| IndexError (position : nat).

Inductive result (A : Type) : Type :=
| Ok (a : A)
| Raise (e : exn).

Arguments Ok {A} a.
Arguments Raise {A} e.

Definition bind {A B : Type} (r : result A) (k : A -> result B) : result B :=
  match r with
  | Ok a => k a
  | Raise e => Raise e
  end.

Notation "x <- r ;; k" := (bind r (fun x => k))
  (at level 61, r at next level, right associativity).

Fixpoint mapM {A B : Type} (f : A -> result B) (l : list A) : result (list B) :=
  match l with
  | [] => Ok []
  | a :: l' => b <- f a ;; bs <- mapM f l' ;; Ok (b :: bs)
  end.

(** ** Rows of the two sources *)

(** A row of the books file.  A field the file leaves out is read as NaN,
    here [None]. *)
Record BookRecord : Type := {
  book_isbn : option string;
  book_title : option string;
  book_author : option string
}.

(** A row of the ratings file: user (int32), isbn (str), rating (float32),
    each field present. *)
Record RatingEvent : Type := {
  user : Z;
  isbn : string;
  rating : Q
}.

(** What [pd.read_csv] does with a path: the file is absent; pandas
    raises another exception while it reads the file or coerces a field
    to its dtype; or the file parses to rows, which may be none. *)
Inductive csv (A : Type) : Type :=
| Absent
| Refused (what : string)
| Rows (rows : list A).

Arguments Absent {A}.
Arguments Refused {A} what.
Arguments Rows {A} rows.

Record Disk : Type := {
  books_at : string -> csv BookRecord;
  ratings_at : string -> csv RatingEvent
}.

Definition read_csv {A : Type} (at_path : string -> csv A) (path : string)
  : result (list A) :=
  match at_path path with
  | Absent => Raise (FileNotFoundError path)
  | Refused what => Raise (ReadError path what)
  | Rows rows => Ok rows
  end.

(** ** Sorting

    Both libraries sort: pandas the labels of a group-by, the neighbor
    search the distances.  Insertion sort; an element goes before the
    first one it is [leb] to, so elements that compare equal keep their
    order. *)

Section Sorting.

Variable A : Type.
Variable leb : A -> A -> bool.

Fixpoint insert (a : A) (sorted : list A) : list A :=
  match sorted with
  | [] => [a]
  | b :: rest => if leb a b then a :: sorted else b :: insert a rest
  end.

Definition insertion_sort (l : list A) : list A := fold_right insert [] l.

End Sorting.

(** ** The pandas operations the pipeline uses *)

Module Pandas.

Record DataFrame (I C V : Type) : Type := {
  index : list I;
  columns : list C;
  values : list (list V)
}.

Definition shape {I C V : Type} (df : DataFrame I C V) : nat * nat :=
  (length (index df), length (columns df)).

(** [df_books.dropna()]: rows with a missing field go. *)
Definition complete (b : BookRecord) : bool :=
  match book_isbn b, book_title b, book_author b with
  | Some _, Some _, Some _ => true
  | _, _, _ => false
  end.

Definition dropna (df_books : list BookRecord) : list BookRecord :=
  filter complete df_books.

Section Keys.

Variable K : Type.
Variable K_dec : forall x y : K, {x = y} + {x <> y}.

(** [Series.value_counts()]: each distinct key with the number of rows
    that hold it.  pandas lists the keys by decreasing count; the
    pipeline only tests membership in what it keeps of them. *)
Definition value_counts (col : list K) : list (K * nat) :=
  map (fun k => (k, count_occ K_dec col k)) (nodup K_dec col).

(** [counts[counts > threshold].index] *)
Definition above (threshold : Z) (counts : list (K * nat)) : list K :=
  map fst (filter (fun kc => (threshold <? Z.of_nat (snd kc))%Z) counts).

(** [Series.isin(keys)], at one row. *)
Definition isin (keys : list K) (k : K) : bool :=
  if in_dec K_dec k keys then true else false.

(** The distinct keys of a column, sorted: the labels a group-by gives. *)
Variable leb : K -> K -> bool.

Definition group_keys (col : list K) : list K :=
  insertion_sort leb (nodup K_dec col).

End Keys.

(** [pd.merge(df_ratings, df_books, on='isbn')]: inner join, the rating
    rows in their order, each with every book row of its isbn. *)
Definition merge (df_ratings : list RatingEvent) (df_books : list BookRecord)
  : list (RatingEvent * BookRecord) :=
  flat_map
    (fun r =>
       map (fun b => (r, b))
           (filter (fun b => match book_isbn b with
                             | Some i => String.eqb i (isbn r)
                             | None => false
                             end) df_books))
    df_ratings.

Definition Qsum (l : list Q) : Q := fold_right Qplus 0%Q l.

Definition mean (l : list Q) : Q := (Qsum l / inject_Z (Z.of_nat (length l)))%Q.

(** The ratings of one (user, isbn) group of the merged table. *)
Definition group (df_merged : list (RatingEvent * BookRecord))
           (u : Z) (i : string) : list Q :=
  map (fun rb => rating (fst rb))
      (filter (fun rb => Z.eqb (user (fst rb)) u && String.eqb (isbn (fst rb)) i)
              df_merged).

(** [df.pivot_table(index=['user'], columns=['isbn'], values='rating')]:
    the default aggregation is the mean; a (user, isbn) pair without
    rows is NaN. *)
Definition pivot_table (df_merged : list (RatingEvent * BookRecord))
  : DataFrame Z string (option Q) :=
  let users := group_keys Z.eq_dec Z.leb (map (fun rb => user (fst rb)) df_merged) in
  let isbns := group_keys string_dec String.leb
                          (map (fun rb => isbn (fst rb)) df_merged) in
  {| index := users;
     columns := isbns;
     values :=
       map (fun u =>
              map (fun i => match group df_merged u i with
                            | [] => None
                            | g => Some (mean g)
                            end) isbns) users |}.

Definition fillna {I C : Type} (v : Q) (df : DataFrame I C (option Q))
  : DataFrame I C Q :=
  {| index := index df;
     columns := columns df;
     values := map (map (fun cell => match cell with
                                     | Some x => x
                                     | None => v
                                     end)) (values df) |}.

Fixpoint cons_each {V : Type} (row : list V) (cols : list (list V))
  : list (list V) :=
  match row, cols with
  | x :: row', col :: cols' => (x :: col) :: cons_each row' cols'
  | _, _ => []
  end.

Fixpoint transpose {V : Type} (ncols : nat) (rows : list (list V))
  : list (list V) :=
  match rows with
  | [] => repeat [] ncols
  | row :: rows' => cons_each row (transpose ncols rows')
  end.

(** [df.T] *)
Definition T {I C V : Type} (df : DataFrame I C V) : DataFrame C I V :=
  {| index := columns df;
     columns := index df;
     values := transpose (length (columns df)) (values df) |}.

(** [df.join(df_books.set_index('isbn'))['title']]: a left join on the
    row labels; a label without a book row gets a NaN title, a label with
    several book rows gets one row for each. *)
Definition join_title (labels : list string) (df_books : list BookRecord)
  : list (option string) :=
  flat_map
    (fun i =>
       match filter (fun b => match book_isbn b with
                              | Some i' => String.eqb i' i
                              | None => false
                              end) df_books with
       | [] => [None]
       | bs => map book_title bs
       end)
    labels.

(** [df.index = labels]: the labels must be as many as the rows. *)
Definition set_index {I J C V : Type} (df : DataFrame I C V) (labels : list J)
  : result (DataFrame J C V) :=
  if Nat.eqb (length labels) (length (index df))
  then Ok {| index := labels; columns := columns df; values := values df |}
  else Raise (LengthMismatch (length (index df)) (length labels)).

Definition label_eqb (l : option string) (t : string) : bool :=
  match l with
  | Some s => String.eqb s t
  | None => false
  end.

(** [t in df.index] *)
Definition contains (labels : list (option string)) (t : string) : bool :=
  existsb (fun l => label_eqb l t) labels.

(** [df.index.get_loc(t)]: the positions that carry the label (pandas
    gives an integer when there is one, a slice or a mask otherwise). *)
Fixpoint get_loc_from (pos : nat) (labels : list (option string)) (t : string)
  : list nat :=
  match labels with
  | [] => []
  | l :: rest =>
      if label_eqb l t then pos :: get_loc_from (S pos) rest t
      else get_loc_from (S pos) rest t
  end.

Definition get_loc (labels : list (option string)) (t : string) : list nat :=
  get_loc_from 0 labels t.

(** [df.iloc[idx, :].values.reshape(1, -1)]: the selected rows laid out in
    one row. *)
Definition iloc_reshape {I C : Type} (df : DataFrame I C Q) (idx : list nat)
  : list Q :=
  flat_map (fun p => nth p (values df) []) idx.

End Pandas.

(** ** The neighbor search *)

Module Sklearn.

(** A two-dimensional array with its shape. *)
Record ndarray : Type := {
  n_rows : nat;
  n_cols : nat;
  data : list (list Q)
}.

(** A fitted [NearestNeighbors(metric='cosine')]. *)
Record NearestNeighbors : Type := {
  fit_X : list (list Q);
  n_samples_fit : nat;
  n_features_in : nat
}.

(** [NearestNeighbors.fit(X)]: the input validation refuses an array
    without a sample or without a feature; the fitted index keeps the
    rows. *)
Definition fit (X : ndarray) : result NearestNeighbors :=
  if Nat.eqb (n_rows X) 0 || Nat.eqb (n_cols X) 0
  then Raise (EmptyArray (n_rows X) (n_cols X))
  else Ok {| fit_X := data X;
             n_samples_fit := n_rows X;
             n_features_in := n_cols X |}.

Section Metric.

(** The cosine distance as the library computes it between the query
    and a fitted row. *)
Variable cosine : list Q -> list Q -> Q.

(** The positions of the fitted rows, each with its distance to the
    query, by increasing distance. *)
Definition argsort (distances : list Q) : list (Q * nat) :=
  insertion_sort (fun a b => Qle_bool (fst a) (fst b))
                 (combine distances (seq 0 (length distances))).

(** [model.kneighbors(X, n_neighbors)] for one query row: the checks of
    the library in their order, then the [n_neighbors] nearest fitted
    rows, distances and positions. *)
Definition kneighbors (model : NearestNeighbors) (X : list Q) (n_neighbors : Z)
  : result (list Q * list nat) :=
  if (n_neighbors <=? 0)%Z then Raise (NonPositiveNeighbors n_neighbors)
  else if negb (Nat.eqb (length X) (n_features_in model))
  then Raise (FeatureMismatch (length X) (n_features_in model))
  else if (Z.of_nat (n_samples_fit model) <? n_neighbors)%Z
  then Raise (TooManyNeighbors n_neighbors (n_samples_fit model))
  else
    let nearest :=
      firstn (Z.to_nat n_neighbors) (argsort (map (cosine X) (fit_X model))) in
    Ok (map fst nearest, map snd nearest).

End Metric.

(** A metric to run the examples with: one minus the dot product over the
    product of the norms (a zero norm counts as one), kept within 0 and
    2; the square root is taken downwards to a multiple of 2^-32. *)
Definition dot (x y : list Q) : Q :=
  fold_right Qplus 0%Q (map (fun p => (fst p * snd p)%Q) (combine x y)).

Definition sqrt_down (q : Q) : Q :=
  Qred (Z.sqrt (Qnum q * 2 ^ 64 / Zpos (Qden q)) # 2 ^ 32).

Definition norm (x : list Q) : Q :=
  let n := sqrt_down (dot x x) in
  if Qeq_bool n 0 then 1%Q else n.

Definition cosine_distance (x y : list Q) : Q :=
  let d := Qred (1 - dot x y / (norm x * norm y))%Q in
  if Qle_bool d 0 then 0%Q else if Qle_bool 2 d then 2%Q else d.

End Sklearn.

(** ** The recommender *)

Import Pandas Sklearn.

Record BookRecommendation : Type := {
  title : option string;
  similarity_score : Q
}.

Record BookRecommender : Type := {
  min_book_ratings : Z;
  min_user_ratings : Z;
  model : option NearestNeighbors;
  books_data : option (DataFrame (option string) Z Q)
}.

(** Lines 78-80: the ratings of the users with more than
    [min_user_ratings] ratings. *)
Definition filter_active_users (min_user_ratings : Z)
           (df_ratings : list RatingEvent) : list RatingEvent :=
  let active_users := value_counts Z.eq_dec (map user df_ratings) in
  let active_users := above min_user_ratings active_users in
  filter (fun r => isin Z.eq_dec active_users (user r)) df_ratings.

(** Lines 83-85: the ratings of the books with more than
    [min_book_ratings] ratings. *)
Definition filter_frequent_books (min_book_ratings : Z)
           (df_ratings : list RatingEvent) : list RatingEvent :=
  let frequent_books := value_counts string_dec (map isbn df_ratings) in
  let frequent_books := above min_book_ratings frequent_books in
  filter (fun r => isin string_dec frequent_books (isbn r)) df_ratings.

(** Lines 88-95: join with the books, pivot on the mean, fill with 0,
    transpose, relabel the rows by title. *)
Definition pivot_and_label (df_books : list BookRecord)
           (df_ratings : list RatingEvent)
  : result (DataFrame (option string) Z Q) :=
  let df_merged := merge df_ratings df_books in
  let books_data := T (fillna 0 (pivot_table df_merged)) in
  set_index books_data (join_title (index books_data) df_books).

(** Lines 75-95, from the parsed rows to the rating matrix. *)
Definition rating_matrix (df_books : list BookRecord)
           (df_ratings : list RatingEvent)
           (min_book_ratings min_user_ratings : Z)
  : result (DataFrame (option string) Z Q) :=
  let df_books := dropna df_books in
  let df_ratings := filter_active_users min_user_ratings df_ratings in
  let df_ratings := filter_frequent_books min_book_ratings df_ratings in
  pivot_and_label df_books df_ratings.

Definition _load_and_process_data (disk : Disk) (self : BookRecommender)
           (books_file ratings_file : string) : result BookRecommender :=
  df_books <- read_csv (books_at disk) books_file ;;
  df_ratings <- read_csv (ratings_at disk) ratings_file ;;
  data <- rating_matrix df_books df_ratings
                        (min_book_ratings self) (min_user_ratings self) ;;
  Ok {| min_book_ratings := min_book_ratings self;
        min_user_ratings := min_user_ratings self;
        model := model self;
        books_data := Some data |}.

(** [df.values] *)
Definition to_numpy {I C : Type} (df : DataFrame I C Q) : ndarray :=
  {| n_rows := length (index df);
     n_cols := length (columns df);
     data := values df |}.

Definition _train_model (self : BookRecommender) : result BookRecommender :=
  match books_data self with
  | None => Raise DataNotLoaded
  | Some data =>
      fitted <- fit (to_numpy data) ;;
      Ok {| min_book_ratings := min_book_ratings self;
            min_user_ratings := min_user_ratings self;
            model := Some fitted;
            books_data := books_data self |}
  end.

Definition __init__ (disk : Disk) (books_file ratings_file : string)
           (min_book_ratings min_user_ratings : Z) : result BookRecommender :=
  let self := {| min_book_ratings := min_book_ratings;
                 min_user_ratings := min_user_ratings;
                 model := None;
                 books_data := None |} in
  self <- _load_and_process_data disk self books_file ratings_file ;;
  _train_model self.

(** [df.index[i]] *)
Definition label_at {I : Type} (labels : list I) (i : nat) : result I :=
  match nth_error labels i with
  | Some l => Ok l
  | None => Raise (IndexError i)
  end.

(** Lines 154-161: the first neighbor of the answer is skipped, each
    other one becomes a recommendation. *)
Definition recommendations_of (data : DataFrame (option string) Z Q)
           (distances : list Q) (indices : list nat)
  : result (list BookRecommendation) :=
  mapM (fun di =>
          l <- label_at (index data) (snd di) ;;
          Ok {| title := l;
                similarity_score := (1 - fst di)%Q |})
       (combine (tl distances) (tl indices)).

Section Query.

Variable cosine : list Q -> list Q -> Q.

Definition get_recommendations (self : BookRecommender) (book_title : string)
           (n_recommendations : Z) : result (list BookRecommendation) :=
  match model self with
  | None => Raise ModelNotTrained
  | Some fitted =>
      match books_data self with
      | None => Raise AttributeError
      | Some data =>
          if negb (contains (index data) book_title)
          then Raise (BookNotFound book_title)
          else
            let idx := get_loc (index data) book_title in
            let book_values := iloc_reshape data idx in
            found <- kneighbors cosine fitted book_values
                                (n_recommendations + 1) ;;
            recommendations_of data (fst found) (snd found)
      end
  end.

End Query.

(** ** The demonstration *)

(** What [main] prints: a heading with the title asked for, then a line
    for each recommendation with its number, its title and its score.
    A line keeps the score as a number; its rendering with three
    decimals is not modelled. *)
Inductive printed : Type :=
| Heading (book_title : string)
| Numbered (i : nat) (title : option string) (score : Q).

(** [enumerate(l, start)] *)
Definition enumerate {A : Type} (l : list A) (start : nat) : list (nat * A) :=
  combine (seq start (length l)) l.

Section Main.

Variable cosine : list Q -> list Q -> Q.

(** The thresholds are the defaults of the constructor; nothing is
    printed unless both calls return. *)
Definition main (disk : Disk) : result (list printed) :=
  recommender <- __init__ disk "dataset_books/BX-Books.csv"
                          "dataset_books/BX-Book-Ratings.csv" 100 10 ;;
  let book_title := "Jewel"%string in
  recommendations <- get_recommendations cosine recommender book_title 5 ;;
  Ok (Heading book_title
      :: map (fun ir => Numbered (fst ir) (title (snd ir))
                                 (similarity_score (snd ir)))
             (enumerate recommendations 1)).

End Main.

(** ** The vocabulary of the specification *)

(** The activity filter in the words of the specification: a rating
    stays when its user has strictly more than [min_user_ratings] ratings
    in the whole collection; of those, a rating stays when its isbn has
    strictly more than [min_book_ratings] ratings among them. *)
Definition rating_count_of_user (rs : list RatingEvent) (u : Z) : nat :=
  length (filter (fun r => Z.eqb (user r) u) rs).

Definition rating_count_of_isbn (rs : list RatingEvent) (i : string) : nat :=
  length (filter (fun r => String.eqb (isbn r) i) rs).

Definition spec_user_filter (min_user_ratings : Z) (rs : list RatingEvent)
  : list RatingEvent :=
  filter (fun r => (min_user_ratings <? Z.of_nat (rating_count_of_user rs (user r)))%Z)
         rs.

Definition spec_item_filter (min_book_ratings : Z) (rs : list RatingEvent)
  : list RatingEvent :=
  filter (fun r => (min_book_ratings <? Z.of_nat (rating_count_of_isbn rs (isbn r)))%Z)
         rs.

Definition spec_activity_filter (min_book_ratings min_user_ratings : Z)
           (rs : list RatingEvent) : list RatingEvent :=
  spec_item_filter min_book_ratings (spec_user_filter min_user_ratings rs).

(** The ratings that pass both filters of the pipeline. *)
Definition survivors (min_book_ratings min_user_ratings : Z)
           (rs : list RatingEvent) : list RatingEvent :=
  filter_frequent_books min_book_ratings
                        (filter_active_users min_user_ratings rs).

(** A rating whose isbn has a book row with no field missing. *)
Definition has_book (df_books : list BookRecord) (r : RatingEvent) : bool :=
  existsb (fun b => complete b && match book_isbn b with
                                  | Some i => String.eqb i (isbn r)
                                  | None => false
                                  end) df_books.

(** The ratings that reach the pivot: they pass both filters and the
    join. *)
Definition joined (df_books : list BookRecord) (min_book_ratings min_user_ratings : Z)
           (rs : list RatingEvent) : list RatingEvent :=
  filter (has_book df_books) (survivors min_book_ratings min_user_ratings rs).

Definition distinct_isbns (rs : list RatingEvent) : nat :=
  length (nodup string_dec (map isbn rs)).

Definition distinct_users (rs : list RatingEvent) : nat :=
  length (nodup Z.eq_dec (map user rs)).

(** The ratings of one (user, isbn) pair among [rs], in their order. *)
Definition ratings_of (rs : list RatingEvent) (u : Z) (i : string) : list Q :=
  map rating (filter (fun r => Z.eqb (user r) u && String.eqb (isbn r) i) rs).

(** The isbn behind each row of the matrix, in row order. *)
Definition row_isbns (df_books : list BookRecord) (min_book_ratings min_user_ratings : Z)
           (rs : list RatingEvent) : list string :=
  columns (pivot_table
             (merge (survivors min_book_ratings min_user_ratings rs)
                    (dropna df_books))).

(** The book rows a left join finds for an isbn. *)
Definition book_rows (bs : list BookRecord) (i : string) : list BookRecord :=
  filter (fun b => match book_isbn b with
                   | Some i' => String.eqb i' i
                   | None => false
                   end) bs.

(** The errors of the neighbor search and of the lookup of its
    positions. *)
Inductive search_error : exn -> Prop :=
| se_non_positive n : search_error (NonPositiveNeighbors n)
| se_features got expected : search_error (FeatureMismatch got expected)
| se_too_many n s : search_error (TooManyNeighbors n s)
| se_position i : search_error (IndexError i).

(** The number of rows that carry the title. *)
Definition occurrences (labels : list (option string)) (t : string) : nat :=
  length (get_loc labels t).

(** ** Examples to evaluate the model on *)

Definition book (i t a : string) : BookRecord :=
  {| book_isbn := Some i; book_title := Some t; book_author := Some a |}.

Definition rated (u : Z) (i : string) (r : Q) : RatingEvent :=
  {| user := u; isbn := i; rating := r |}.

Definition disk_of (bs : list BookRecord) (rs : list RatingEvent) : Disk :=
  {| books_at := fun p => if String.eqb p "books.csv" then Rows bs else Absent;
     ratings_at := fun p => if String.eqb p "ratings.csv" then Rows rs else Absent |}.


(** Three books; the first two are rated alike by the same two users. *)
Definition shelf : list BookRecord :=
  [book "1" "A" "x"; book "2" "B" "y"; book "3" "C" "z"].

Definition shelf_ratings : list RatingEvent :=
  [rated 1 "1" 3; rated 2 "1" 4; rated 1 "2" 3; rated 2 "2" 4;
   rated 1 "3" 1; rated 3 "3" 7].

Definition shelf_matrix : DataFrame (option string) Z Q :=
  {| index := [Some "A"%string; Some "B"%string; Some "C"%string];
     columns := [1%Z; 2%Z; 3%Z];
     values := [[3; 4; 0]; [3; 4; 0]; [1; 0; 7]]%Q |}.

Definition shelf_recommender : BookRecommender :=
  {| min_book_ratings := 0;
     min_user_ratings := 0;
     model := Some {| fit_X := values shelf_matrix;
                      n_samples_fit := 3;
                      n_features_in := 3 |};
     books_data := Some shelf_matrix |}.

(** One book with metadata, one without. *)
Definition lone_book : list BookRecord := [book "1" "Jewel" "A"].

Definition lone_ratings : list RatingEvent :=
  [rated 1 "1" 5; rated 2 "2" 3].

Definition lone_matrix : DataFrame (option string) Z Q :=
  {| index := [Some "Jewel"%string]; columns := [1%Z]; values := [[5%Q]] |}.

Definition lone_recommender : BookRecommender :=
  {| min_book_ratings := 0;
     min_user_ratings := 0;
     model := Some {| fit_X := [[5%Q]]; n_samples_fit := 1; n_features_in := 1 |};
     books_data := Some lone_matrix |}.

Definition shelf_answer : list BookRecommendation :=
  [ {| title := Some "B"%string; similarity_score := 1 |};
    {| title := Some "C"%string;
       similarity_score := 12884901888 # 151850024995 |} ].

(** Two books rated alike by the same two users. *)
Definition twins : list BookRecord :=
  [book "1" "A" "x"; book "2" "B" "y"].

Definition twin_ratings : list RatingEvent :=
  [rated 1 "1" 3; rated 2 "1" 4; rated 1 "2" 3; rated 2 "2" 4].

Definition twin_matrix : DataFrame (option string) Z Q :=
  {| index := [Some "A"%string; Some "B"%string];
     columns := [1%Z; 2%Z];
     values := [[3; 4]; [3; 4]]%Q |}.

Definition twin_recommender : BookRecommender :=
  {| min_book_ratings := 0;
     min_user_ratings := 0;
     model := Some {| fit_X := values twin_matrix;
                      n_samples_fit := 2;
                      n_features_in := 2 |};
     books_data := Some twin_matrix |}.

(** Two books with metadata and one without; the third user rates only
    a book that too few users rate. *)
Definition sparse_books : list BookRecord :=
  [book "1" "Jewel" "A"; book "2" "Other" "B"].

Definition sparse_ratings : list RatingEvent :=
  [rated 1 "1" 5; rated 2 "1" 4; rated 3 "2" 3; rated 1 "9" 2; rated 2 "9" 2].

Definition sparse_matrix : DataFrame (option string) Z Q :=
  {| index := [Some "Jewel"%string];
     columns := [1%Z; 2%Z];
     values := [[5; 4]]%Q |}.

(** Two books under one title. *)
Definition namesakes : list BookRecord :=
  [book "1" "Same" "x"; book "2" "Same" "y"].

Definition namesake_ratings : list RatingEvent :=
  [rated 1 "1" 3; rated 1 "2" 4].

Definition namesake_recommender : BookRecommender :=
  {| min_book_ratings := 0;
     min_user_ratings := 0;
     model := Some {| fit_X := [[3]; [4]]%Q;
                      n_samples_fit := 2;
                      n_features_in := 1 |};
     books_data := Some {| index := [Some "Same"%string; Some "Same"%string];
                           columns := [1%Z];
                           values := [[3]; [4]]%Q |} |}.

(** Eleven books, each rated once by each of 101 users: every user has
    more than 10 ratings and every book more than 100, the default
    thresholds. *)
Definition demo_titles : list (string * string) :=
  [("b00", "Jewel"); ("b01", "Amber"); ("b02", "Beryl"); ("b03", "Coral");
   ("b04", "Flint"); ("b05", "Ivory"); ("b06", "Onyx"); ("b07", "Opal");
   ("b08", "Pearl"); ("b09", "Ruby"); ("b10", "Topaz")]%string.

Definition demo_books : list BookRecord :=
  map (fun it => book (fst it) (snd it) "anon") demo_titles.

Definition demo_ratings : list RatingEvent :=
  flat_map
    (fun u =>
       map (fun nb => rated (Z.of_nat u) (fst (snd nb))
                            (inject_Z (Z.of_nat ((u * S (fst nb)) mod 11))))
           (combine (seq 0 11) demo_titles))
    (seq 1 101).

Definition demo_disk : Disk :=
  {| books_at := fun p =>
       if String.eqb p "dataset_books/BX-Books.csv"
       then Rows demo_books else Absent;
     ratings_at := fun p =>
       if String.eqb p "dataset_books/BX-Book-Ratings.csv"
       then Rows demo_ratings else Absent |}.

Definition demo_output : list printed :=
  [Heading "Jewel";
   Numbered 1 (Some "Amber"%string)
            (5497129733965446381568 # 6414840332380609862477);
   Numbered 2 (Some "Ivory"%string)
            (27467201925753522356224 # 32152336251898679774945);
   Numbered 3 (Some "Beryl"%string)
            (1663665731147680186368 # 2011814990257592328395);
   Numbered 4 (Some "Coral"%string)
            (53329537117094313721856 # 64698256837370522342325);
   Numbered 5 (Some "Onyx"%string)
            (47721726918686610030592 # 64497188170547807067365)].

(** One user rating the same book twice. *)
Definition twice_ratings : list RatingEvent :=
  [rated 1 "1" 4; rated 1 "1" 8].

Definition twice_matrix : DataFrame (option string) Z Q :=
  {| index := [Some "Jewel"%string];
     columns := [1%Z];
     values := [[mean [4; 8]%Q]] |}.

(** * Properties *)

(** ** Sorting *)

Section SortingFacts.

Variable A : Type.
Variable leb : A -> A -> bool.

Lemma insert_perm (a : A) (l : list A) :
  Permutation (insert leb a l) (a :: l).
Proof.
  induction l as [|b l IH]; simpl.
  - apply Permutation_refl.
  - destruct (leb a b).
    + apply Permutation_refl.
    + eapply perm_trans; [apply perm_skip, IH | apply perm_swap].
Qed.

Lemma insertion_sort_perm (l : list A) :
  Permutation (insertion_sort leb l) l.
Proof.
  induction l as [|a l IH]; simpl.
  - apply perm_nil.
  - eapply perm_trans; [apply insert_perm | apply perm_skip, IH].
Qed.

Lemma insertion_sort_length (l : list A) :
  length (insertion_sort leb l) = length l.
Proof. apply Permutation_length, insertion_sort_perm. Qed.

Lemma insertion_sort_In (x : A) (l : list A) :
  In x (insertion_sort leb l) <-> In x l.
Proof.
  split; apply Permutation_in;
    [ | apply Permutation_sym ]; apply insertion_sort_perm.
Qed.

Hypothesis leb_total : forall a b, leb a b = true \/ leb b a = true.

Lemma insert_sorted (a : A) (l : list A) :
  Sorted (fun x y => leb x y = true) l ->
  Sorted (fun x y => leb x y = true) (insert leb a l).
Proof.
  induction 1 as [|b l Hs IH Hhd]; simpl.
  - repeat constructor.
  - destruct (leb a b) eqn:E.
    + constructor; [constructor; assumption | constructor; exact E].
    + constructor; [exact IH | ].
      assert (Hba : leb b a = true)
        by (destruct (leb_total a b) as [H|H]; [congruence | exact H]).
      destruct l as [|c l]; simpl.
      * constructor; exact Hba.
      * destruct (leb a c); constructor;
          [exact Hba | inversion Hhd; assumption].
Qed.

Lemma insertion_sort_sorted (l : list A) :
  Sorted (fun x y => leb x y = true) (insertion_sort leb l).
Proof.
  induction l as [|a l IH]; simpl.
  - constructor.
  - apply insert_sorted, IH.
Qed.

End SortingFacts.

(** ** Counting keys *)

Section KeyFacts.

Variable K : Type.
Variable K_dec : forall x y : K, {x = y} + {x <> y}.

Lemma in_above (t : Z) (col : list K) (k : K) :
  In k (above t (value_counts K_dec col)) <->
  In k col /\ (t < Z.of_nat (count_occ K_dec col k))%Z.
Proof.
  unfold above, value_counts. rewrite in_map_iff. split.
  - intros [[k' c] [Hk Hin]]. simpl in Hk. subst k'.
    apply filter_In in Hin. destruct Hin as [Hin Ht].
    apply in_map_iff in Hin. destruct Hin as [k0 [Heq Hk0]].
    inversion Heq; subst. simpl in Ht.
    apply nodup_In in Hk0. split; [exact Hk0 | ].
    apply Z.ltb_lt. exact Ht.
  - intros [Hin Ht]. exists (k, count_occ K_dec col k). split; [reflexivity | ].
    apply filter_In. split.
    + apply in_map_iff. exists k. split; [reflexivity | ].
      apply nodup_In. exact Hin.
    + simpl. apply Z.ltb_lt. exact Ht.
Qed.

Lemma isin_above (t : Z) (col : list K) (k : K) :
  In k col ->
  isin K_dec (above t (value_counts K_dec col)) k
  = (t <? Z.of_nat (count_occ K_dec col k))%Z.
Proof.
  intros Hin. unfold isin.
  destruct (in_dec K_dec k (above t (value_counts K_dec col))) as [H|H].
  - apply in_above in H. symmetry. apply Z.ltb_lt. tauto.
  - symmetry. apply Z.ltb_ge.
    destruct (Z.lt_ge_cases t (Z.of_nat (count_occ K_dec col k))) as [Hlt|Hge];
      [ | lia ].
    exfalso. apply H. apply in_above. tauto.
Qed.

End KeyFacts.

Lemma count_occ_user (rs : list RatingEvent) (u : Z) :
  count_occ Z.eq_dec (map user rs) u = rating_count_of_user rs u.
Proof.
  unfold rating_count_of_user.
  induction rs as [|r rs IH]; simpl; [reflexivity | ].
  destruct (Z.eq_dec (user r) u) as [E|E].
  - apply Z.eqb_eq in E. rewrite E. simpl. now rewrite IH.
  - apply Z.eqb_neq in E. rewrite E. exact IH.
Qed.

Lemma count_occ_isbn (rs : list RatingEvent) (i : string) :
  count_occ string_dec (map isbn rs) i = rating_count_of_isbn rs i.
Proof.
  unfold rating_count_of_isbn.
  induction rs as [|r rs IH]; simpl; [reflexivity | ].
  destruct (string_dec (isbn r) i) as [E|E].
  - apply String.eqb_eq in E. rewrite E. simpl. now rewrite IH.
  - apply String.eqb_neq in E. rewrite E. exact IH.
Qed.

Lemma filter_active_users_spec (mu : Z) (rs : list RatingEvent) :
  filter_active_users mu rs = spec_user_filter mu rs.
Proof.
  unfold filter_active_users, spec_user_filter.
  apply filter_ext_in. intros r Hr.
  rewrite isin_above by (apply in_map; exact Hr).
  now rewrite count_occ_user.
Qed.

Lemma filter_frequent_books_spec (mb : Z) (rs : list RatingEvent) :
  filter_frequent_books mb rs = spec_item_filter mb rs.
Proof.
  unfold filter_frequent_books, spec_item_filter.
  apply filter_ext_in. intros r Hr.
  rewrite isin_above by (apply in_map; exact Hr).
  now rewrite count_occ_isbn.
Qed.

Lemma survivors_spec (mb mu : Z) (rs : list RatingEvent) :
  survivors mb mu rs = spec_activity_filter mb mu rs.
Proof.
  unfold survivors, spec_activity_filter.
  now rewrite filter_active_users_spec, filter_frequent_books_spec.
Qed.

(** ** The join and the labels of the pivot *)

Lemma in_merge (rs : list RatingEvent) (bs : list BookRecord)
      (r : RatingEvent) (b : BookRecord) :
  In (r, b) (merge rs bs) <->
  In r rs /\ In b bs /\ book_isbn b = Some (isbn r).
Proof.
  unfold merge. rewrite in_flat_map. split.
  - intros [r' [Hr' Hin]]. apply in_map_iff in Hin.
    destruct Hin as [b' [Heq Hb']]. inversion Heq; subst.
    apply filter_In in Hb'. destruct Hb' as [Hb Hm].
    destruct (book_isbn b) as [i|] eqn:E; [ | discriminate ].
    apply String.eqb_eq in Hm. subst i. auto.
  - intros [Hr [Hb Hi]]. exists r. split; [exact Hr | ].
    apply in_map. apply filter_In. split; [exact Hb | ].
    rewrite Hi. apply String.eqb_refl.
Qed.

Lemma has_book_true (bs : list BookRecord) (r : RatingEvent) :
  has_book bs r = true <->
  exists b, In b (dropna bs) /\ book_isbn b = Some (isbn r).
Proof.
  unfold has_book, dropna. rewrite existsb_exists. split.
  - intros [b [Hb Hc]]. apply andb_true_iff in Hc. destruct Hc as [Hc Hm].
    exists b. split; [apply filter_In; auto | ].
    destruct (book_isbn b) as [i|]; [ | discriminate ].
    apply String.eqb_eq in Hm. now subst.
  - intros [b [Hb Hi]]. apply filter_In in Hb. destruct Hb as [Hb Hc].
    exists b. split; [exact Hb | ]. rewrite Hc, Hi. simpl.
    apply String.eqb_refl.
Qed.

Lemma in_map_merge (X : Type) (f : RatingEvent -> X)
      (rs : list RatingEvent) (bs : list BookRecord) (x : X) :
  In x (map (fun rb => f (fst rb)) (merge rs (dropna bs))) <->
  In x (map f (filter (has_book bs) rs)).
Proof.
  rewrite !in_map_iff. split.
  - intros [[r b] [Hx Hin]]. simpl in Hx. apply in_merge in Hin.
    destruct Hin as [Hr [Hb Hi]]. exists r. split; [exact Hx | ].
    apply filter_In. split; [exact Hr | ].
    apply has_book_true. exists b. auto.
  - intros [r [Hx Hin]]. apply filter_In in Hin. destruct Hin as [Hr Hh].
    apply has_book_true in Hh. destruct Hh as [b [Hb Hi]].
    exists (r, b). split; [exact Hx | ]. apply in_merge. auto.
Qed.

Section Distinct.

Variable K : Type.
Variable K_dec : forall x y : K, {x = y} + {x <> y}.

Lemma nodup_length_incl (l l' : list K) :
  incl l l' -> length (nodup K_dec l) <= length (nodup K_dec l').
Proof.
  intros H. apply NoDup_incl_length; [apply NoDup_nodup | ].
  intros x Hx. apply nodup_In. apply H. apply nodup_In in Hx. exact Hx.
Qed.

Lemma nodup_length_same (l l' : list K) :
  (forall x, In x l <-> In x l') ->
  length (nodup K_dec l) = length (nodup K_dec l').
Proof.
  intros H. apply Nat.le_antisymm; apply nodup_length_incl;
    intros x Hx; apply H; exact Hx.
Qed.

Lemma group_keys_length (leb : K -> K -> bool) (col : list K) :
  length (group_keys K_dec leb col) = length (nodup K_dec col).
Proof. unfold group_keys. apply insertion_sort_length. Qed.

Lemma group_keys_In (leb : K -> K -> bool) (col : list K) (k : K) :
  In k (group_keys K_dec leb col) <-> In k col.
Proof.
  unfold group_keys. rewrite insertion_sort_In. apply nodup_In.
Qed.

Lemma group_keys_NoDup (leb : K -> K -> bool) (col : list K) :
  NoDup (group_keys K_dec leb col).
Proof.
  unfold group_keys.
  eapply Permutation_NoDup;
    [apply Permutation_sym, insertion_sort_perm | apply NoDup_nodup].
Qed.

End Distinct.

Lemma pivot_columns_length (bs : list BookRecord) (rs : list RatingEvent) :
  length (columns (pivot_table (merge rs (dropna bs))))
  = distinct_isbns (filter (has_book bs) rs).
Proof.
  unfold pivot_table, distinct_isbns. simpl.
  rewrite group_keys_length. apply nodup_length_same.
  intros i. apply (in_map_merge isbn).
Qed.

Lemma pivot_index_length (bs : list BookRecord) (rs : list RatingEvent) :
  length (index (pivot_table (merge rs (dropna bs))))
  = distinct_users (filter (has_book bs) rs).
Proof.
  unfold pivot_table, distinct_users. simpl.
  rewrite group_keys_length. apply nodup_length_same.
  intros u. apply (in_map_merge user).
Qed.

(** What a successful run of the pipeline returns. *)
Lemma rating_matrix_inv (bs : list BookRecord) (rs : list RatingEvent)
      (mb mu : Z) (m : DataFrame (option string) Z Q) :
  rating_matrix bs rs mb mu = Ok m ->
  let pt := pivot_table (merge (survivors mb mu rs) (dropna bs)) in
  index m = join_title (columns pt) (dropna bs) /\
  columns m = index pt /\
  values m = transpose (length (columns pt)) (values (fillna 0 pt)) /\
  length (index m) = length (columns pt).
Proof.
  unfold rating_matrix, pivot_and_label, set_index. fold (survivors mb mu rs).
  simpl. intros H.
  destruct (Nat.eqb _ _) eqn:E; [ | discriminate ].
  apply Nat.eqb_eq in E. inversion H; subst; simpl. auto.
Qed.

(** ** Relabelling the rows by title *)

Lemma join_title_cons (i : string) (ls : list string) (bs : list BookRecord) :
  length (join_title (i :: ls) bs)
  = Nat.max 1 (length (book_rows bs i)) + length (join_title ls bs).
Proof.
  unfold join_title. simpl. rewrite length_app. f_equal.
  fold (book_rows bs i). destruct (book_rows bs i) as [|b l]; simpl.
  - reflexivity.
  - now rewrite length_map.
Qed.

Lemma join_title_length_ge (ls : list string) (bs : list BookRecord) :
  length ls <= length (join_title ls bs).
Proof.
  induction ls as [|i ls IH]; [simpl; lia | ].
  rewrite join_title_cons. simpl length. lia.
Qed.

Lemma join_title_length_eq (ls : list string) (bs : list BookRecord) :
  length (join_title ls bs) = length ls <->
  Forall (fun i => length (book_rows bs i) <= 1) ls.
Proof.
  induction ls as [|i ls IH].
  - simpl. split; [constructor | reflexivity].
  - rewrite join_title_cons. simpl length.
    pose proof (join_title_length_ge ls bs) as Hge. split.
    + intros H. constructor; [lia | ]. apply IH. lia.
    + intros H. inversion H as [|? ? H1 H2]; subst.
      apply IH in H2. lia.
Qed.

Lemma pivot_and_label_ok (bs : list BookRecord) (rs : list RatingEvent) :
  (exists m, pivot_and_label bs rs = Ok m) <->
  Forall (fun i => length (book_rows bs i) <= 1)
         (columns (pivot_table (merge rs bs))).
Proof.
  rewrite <- join_title_length_eq.
  unfold pivot_and_label, set_index. simpl index.
  destruct (Nat.eqb _ _) eqn:E.
  - apply Nat.eqb_eq in E. split; [intros _; exact E | intros _; eauto].
  - apply Nat.eqb_neq in E. split; [intros [m H]; discriminate | tauto].
Qed.

(** ** Raising a threshold keeps fewer ratings *)

Lemma filter_filter_length_le (X : Type) (p p' q : X -> bool) (l : list X) :
  (forall x, p' x = true -> p x = true) ->
  length (filter q (filter p' l)) <= length (filter q (filter p l)).
Proof.
  intros H. induction l as [|x l IH]; simpl; [lia | ].
  destruct (p' x) eqn:E'.
  - rewrite (H x E'). simpl. destruct (q x); simpl; lia.
  - destruct (p x); simpl; [ | exact IH ].
    destruct (q x); simpl; lia.
Qed.

Lemma survivors_incl (mb mu mb' mu' : Z) (rs : list RatingEvent) :
  (mb <= mb')%Z -> (mu <= mu')%Z ->
  incl (survivors mb' mu' rs) (survivors mb mu rs).
Proof.
  intros Hb Hu r. rewrite !survivors_spec.
  unfold spec_activity_filter, spec_item_filter.
  rewrite !filter_In. intros [Hin Hc].
  assert (Himp : forall x,
             (mu' <? Z.of_nat (rating_count_of_user rs (user x)))%Z = true ->
             (mu <? Z.of_nat (rating_count_of_user rs (user x)))%Z = true).
  { intros x Hx. apply Z.ltb_lt in Hx. apply Z.ltb_lt. lia. }
  split.
  - unfold spec_user_filter in *. apply filter_In in Hin.
    apply filter_In. split; [tauto | ]. apply Himp. tauto.
  - apply Z.ltb_lt in Hc. apply Z.ltb_lt.
    unfold rating_count_of_isbn, spec_user_filter in *.
    pose proof (filter_filter_length_le
                  (fun x => (mu <? Z.of_nat (rating_count_of_user rs (user x)))%Z)
                  (fun x => (mu' <? Z.of_nat (rating_count_of_user rs (user x)))%Z)
                  (fun x => String.eqb (isbn x) (isbn r)) rs Himp).
    lia.
Qed.

Lemma joined_incl (bs : list BookRecord) (mb mu mb' mu' : Z)
      (rs : list RatingEvent) :
  (mb <= mb')%Z -> (mu <= mu')%Z ->
  incl (joined bs mb' mu' rs) (joined bs mb mu rs).
Proof.
  intros Hb Hu r. unfold joined. rewrite !filter_In. intros [Hin Hh].
  split; [ | exact Hh]. eapply survivors_incl; eauto.
Qed.

(** ** The preparation pipeline *)

(** C4: the pipeline keeps the ratings of the users with strictly more
    than [min_user_ratings] ratings in the whole collection, and of these
    the ratings of the isbns with strictly more than [min_book_ratings]
    ratings among them; the matrix is built from exactly these. *)
Theorem C4_user_filter_then_item_filter :
  forall (bs : list BookRecord) (rs : list RatingEvent) (mb mu : Z),
    filter_frequent_books mb (filter_active_users mu rs)
    = spec_activity_filter mb mu rs /\
    rating_matrix bs rs mb mu
    = pivot_and_label (dropna bs) (spec_activity_filter mb mu rs).
Proof.
  intros bs rs mb mu.
  pose proof (survivors_spec mb mu rs) as H. unfold survivors in H.
  split; [exact H | ].
  unfold rating_matrix. now rewrite H.
Qed.

(** C3, as stated, fails.  With [min_user_ratings = 0] and
    [min_book_ratings = 1], the isbns 1 and 9 pass both filters and the
    three users pass the user filter; isbn 9 has no book row and the
    third user rates only isbn 2, which the item filter drops: the matrix
    has one row and two columns. *)
Lemma C3_counterexample :
  rating_matrix sparse_books sparse_ratings 1 0 = Ok sparse_matrix /\
  shape sparse_matrix = (1, 2) /\
  distinct_isbns (survivors 1 0 sparse_ratings) = 2 /\
  distinct_users (filter_active_users 0 sparse_ratings) = 3.
Proof. repeat split; vm_compute; reflexivity. Qed.

(** C3, amended: the row count is the number of distinct isbns among the
    ratings that pass both filters and find a complete book row; the
    column count is the number of distinct users among these ratings. *)
Theorem C3_shape_counts_joined_ratings :
  forall (bs : list BookRecord) (rs : list RatingEvent) (mb mu : Z)
         (m : DataFrame (option string) Z Q),
    rating_matrix bs rs mb mu = Ok m ->
    length (index m) = distinct_isbns (joined bs mb mu rs) /\
    length (columns m) = distinct_users (joined bs mb mu rs).
Proof.
  intros bs rs mb mu m H. apply rating_matrix_inv in H.
  destruct H as [_ [Hc [_ Hl]]]. unfold joined. split.
  - rewrite Hl. apply pivot_columns_length.
  - rewrite Hc. apply pivot_index_length.
Qed.

Lemma C3_shape_counts_joined_ratings_witness :
  length (index lone_matrix) = distinct_isbns (joined lone_book 0 0 lone_ratings) /\
  length (columns lone_matrix) = distinct_users (joined lone_book 0 0 lone_ratings).
Proof.
  apply (@C3_shape_counts_joined_ratings lone_book lone_ratings 0%Z 0%Z lone_matrix).
  vm_compute. reflexivity.
Defined.

(** C7: with the sources fixed, raising [min_user_ratings] or
    [min_book_ratings] leaves a matrix with no more rows and no more
    columns. *)
Theorem C7_thresholds_monotone :
  forall (bs : list BookRecord) (rs : list RatingEvent) (mb mu mb' mu' : Z)
         (m : DataFrame (option string) Z Q),
    (mb <= mb')%Z -> (mu <= mu')%Z ->
    rating_matrix bs rs mb mu = Ok m ->
    exists m',
      rating_matrix bs rs mb' mu' = Ok m' /\
      length (index m') <= length (index m) /\
      length (columns m') <= length (columns m).
Proof.
  intros bs rs mb mu mb' mu' m Hb Hu H.
  assert (Hok : exists m', rating_matrix bs rs mb' mu' = Ok m').
  { unfold rating_matrix in *. fold (survivors mb mu rs) in H.
    fold (survivors mb' mu' rs).
    apply pivot_and_label_ok.
    assert (H0 : exists m0, pivot_and_label (dropna bs) (survivors mb mu rs) = Ok m0)
      by eauto.
    apply pivot_and_label_ok in H0.
    rewrite Forall_forall in *. intros i Hi. apply H0.
    unfold pivot_table in *. simpl in *.
    apply group_keys_In. apply group_keys_In in Hi.
    apply (in_map_merge isbn). apply (in_map_merge isbn) in Hi.
    apply in_map_iff in Hi. destruct Hi as [r [Hr Hin]].
    apply in_map_iff. exists r. split; [exact Hr | ].
    eapply joined_incl; [exact Hb | exact Hu | exact Hin]. }
  destruct Hok as [m' Hm']. exists m'. split; [exact Hm' | ].
  apply rating_matrix_inv in H. destruct H as [_ [Hc [_ Hr]]].
  apply rating_matrix_inv in Hm'. destruct Hm' as [_ [Hc' [_ Hr']]].
  rewrite Hr, Hc, Hr', Hc'.
  rewrite !pivot_columns_length, !pivot_index_length.
  unfold distinct_isbns, distinct_users.
  split; apply nodup_length_incl; apply incl_map;
    apply (@joined_incl bs mb mu mb' mu' rs); assumption.
Qed.

Lemma C7_thresholds_monotone_witness :
  exists m',
    rating_matrix shelf shelf_ratings 1 1 = Ok m' /\
    length (index m') <= length (index shelf_matrix) /\
    length (columns m') <= length (columns shelf_matrix).
Proof.
  apply (@C7_thresholds_monotone shelf shelf_ratings 0%Z 0%Z 1%Z 1%Z shelf_matrix);
    [lia | lia | vm_compute; reflexivity].
Defined.

(** ** The constructor *)

(** What a recommender holds when its constructor returns. *)
Lemma init_inv (disk : Disk) (bf rf : string) (mb mu : Z)
      (self : BookRecommender) :
  __init__ disk bf rf mb mu = Ok self ->
  exists bs rs data,
    read_csv (books_at disk) bf = Ok bs /\
    read_csv (ratings_at disk) rf = Ok rs /\
    rating_matrix bs rs mb mu = Ok data /\
    books_data self = Some data /\
    model self = Some {| fit_X := values data;
                         n_samples_fit := length (index data);
                         n_features_in := length (columns data) |} /\
    length (index data) <> 0 /\
    length (columns data) <> 0.
Proof.
  unfold __init__, _load_and_process_data. simpl.
  destruct (read_csv (books_at disk) bf) as [bs|e]; simpl; [ | discriminate].
  destruct (read_csv (ratings_at disk) rf) as [rs|e]; simpl; [ | discriminate].
  destruct (rating_matrix bs rs mb mu) as [data|e] eqn:Hm; simpl; [ | discriminate].
  unfold _train_model, fit, to_numpy. simpl.
  destruct (Nat.eqb (length (index data)) 0) eqn:E1; simpl; [discriminate | ].
  destruct (Nat.eqb (length (columns data)) 0) eqn:E2; simpl; [discriminate | ].
  intros H. inversion H; subst; simpl.
  apply Nat.eqb_neq in E1. apply Nat.eqb_neq in E2.
  exists bs, rs, data. repeat split; assumption.
Qed.

(** ** What a query can raise *)

Lemma mapM_raise (A B : Type) (f : A -> result B) (l : list A) (e : exn) :
  mapM f l = Raise e -> exists a, In a l /\ f a = Raise e.
Proof.
  induction l as [|a l IH]; simpl; [discriminate | ].
  destruct (f a) as [b|e'] eqn:Ha; simpl.
  - destruct (mapM f l) as [bs|e'']; simpl; [discriminate | ].
    intros H. inversion H; subst. destruct (IH eq_refl) as [a' [Hin Hf]].
    exists a'. auto.
  - intros H. inversion H; subst. exists a. auto.
Qed.

Lemma mapM_length (A B : Type) (f : A -> result B) (l : list A) (bs : list B) :
  mapM f l = Ok bs -> length bs = length l.
Proof.
  revert bs. induction l as [|a l IH]; simpl; intros bs H.
  - inversion H. reflexivity.
  - destruct (f a) as [b|e]; simpl in H; [ | discriminate].
    destruct (mapM f l) as [bs'|e]; simpl in H; [ | discriminate].
    inversion H; subst. simpl. f_equal. apply IH. reflexivity.
Qed.

Lemma kneighbors_raise (cosine : list Q -> list Q -> Q)
      (fitted : NearestNeighbors) (X : list Q) (n : Z) (e : exn) :
  kneighbors cosine fitted X n = Raise e -> search_error e.
Proof.
  unfold kneighbors.
  destruct (n <=? 0)%Z; [intros H; inversion H; constructor | ].
  destruct (negb _); [intros H; inversion H; constructor | ].
  destruct (_ <? n)%Z; [intros H; inversion H; constructor | discriminate].
Qed.

Lemma contains_In (labels : list (option string)) (t : string) :
  contains labels t = true <-> In (Some t) labels.
Proof.
  unfold contains. rewrite existsb_exists. split.
  - intros [l [Hin Hl]]. destruct l as [s|]; simpl in Hl; [ | discriminate].
    apply String.eqb_eq in Hl. now subst.
  - intros Hin. exists (Some t). split; [exact Hin | ].
    simpl. apply String.eqb_refl.
Qed.

Lemma get_recommendations_raise (cosine : list Q -> list Q -> Q)
      (self : BookRecommender) (fitted : NearestNeighbors)
      (data : DataFrame (option string) Z Q) (t : string) (k : Z) (e : exn) :
  model self = Some fitted ->
  books_data self = Some data ->
  get_recommendations cosine self t k = Raise e ->
  (e = BookNotFound t /\ ~ In (Some t) (index data)) \/
  (search_error e /\ In (Some t) (index data)).
Proof.
  intros Hm Hd. unfold get_recommendations, recommendations_of. rewrite Hm, Hd.
  destruct (contains (index data) t) eqn:Hc; simpl.
  - apply contains_In in Hc. intros H. right. split; [ | exact Hc].
    destruct (kneighbors cosine fitted _ (k + 1)) as [found|e'] eqn:Hk;
      simpl in H.
    + apply mapM_raise in H. destruct H as [di [_ H]].
      unfold label_at in H.
      destruct (nth_error (index data) (snd di)); simpl in H;
        inversion H. constructor.
    + inversion H; subst. eapply kneighbors_raise. exact Hk.
  - intros H. inversion H. left. split; [reflexivity | ].
    intros Hin. apply contains_In in Hin. congruence.
Qed.

(** C9: when the constructor returns, the matrix and the fitted model are
    both there, and no query raises the model-not-trained error. *)
Theorem C9_constructed_recommender_is_trained :
  forall (disk : Disk) (books_file ratings_file : string) (mb mu : Z)
         (self : BookRecommender),
    __init__ disk books_file ratings_file mb mu = Ok self ->
    books_data self <> None /\
    model self <> None /\
    forall (cosine : list Q -> list Q -> Q) (t : string) (k : Z),
      get_recommendations cosine self t k <> Raise ModelNotTrained.
Proof.
  intros disk bf rf mb mu self H.
  destruct (init_inv _ _ _ _ _ H)
    as [bs [rs [data [_ [_ [_ [Hd [Hm _]]]]]]]].
  repeat split.
  - rewrite Hd. discriminate.
  - rewrite Hm. discriminate.
  - intros cosine t k Hq.
    apply (get_recommendations_raise _ _ _ _ Hm Hd) in Hq.
    destruct Hq as [[Hq _]|[Hq _]]; [discriminate | inversion Hq].
Qed.

Lemma C9_constructed_recommender_is_trained_witness :
  books_data shelf_recommender <> None /\
  model shelf_recommender <> None /\
  forall (cosine : list Q -> list Q -> Q) (t : string) (k : Z),
    get_recommendations cosine shelf_recommender t k <> Raise ModelNotTrained.
Proof.
  apply (@C9_constructed_recommender_is_trained (disk_of shelf shelf_ratings)
           "books.csv" "ratings.csv" 0%Z 0%Z shelf_recommender).
  vm_compute. reflexivity.
Defined.

Lemma shelf_recommender_built :
  __init__ (disk_of shelf shelf_ratings) "books.csv" "ratings.csv" 0 0
  = Ok shelf_recommender.
Proof. vm_compute. reflexivity. Qed.

(** ** Transposition and the shape of the matrix *)

Section Transpose.

Variable V : Type.

Lemma cons_each_shape (k : nat) (row : list V) (cols : list (list V)) :
  Forall (fun c => length c = k) cols ->
  Forall (fun c => length c = S k) (cons_each row cols).
Proof.
  intros H. revert row. induction H as [|c cols Hc _ IH]; intros row.
  - destruct row; constructor.
  - destruct row as [|x row]; simpl; constructor.
    + simpl. now rewrite Hc.
    + apply IH.
Qed.

Lemma cons_each_length (row : list V) (cols : list (list V)) :
  length row = length cols ->
  length (cons_each row cols) = length row.
Proof.
  revert cols. induction row as [|x row IH]; intros [|c cols] H;
    simpl in *; try reflexivity; try discriminate.
  f_equal. apply IH. lia.
Qed.

Lemma cons_each_nth (row : list V) (cols : list (list V)) (i : nat) (d : V) :
  length row = length cols -> i < length row ->
  nth i (cons_each row cols) [] = nth i row d :: nth i cols [].
Proof.
  revert cols i. induction row as [|x row IH]; intros [|c cols] i H Hi;
    simpl in *; try lia.
  destruct i as [|i]; [reflexivity | ]. apply IH; lia.
Qed.

Lemma transpose_length (n : nat) (rows : list (list V)) :
  Forall (fun r => length r = n) rows ->
  length (transpose n rows) = n.
Proof.
  induction 1 as [|r rows Hr _ IH]; simpl.
  - apply repeat_length.
  - rewrite cons_each_length; congruence.
Qed.

Lemma transpose_shape (n : nat) (rows : list (list V)) :
  Forall (fun c => length c = length rows) (transpose n rows).
Proof.
  induction rows as [|r rows IH]; simpl.
  - apply Forall_forall. intros c Hc. apply repeat_spec in Hc. now subst.
  - apply cons_each_shape, IH.
Qed.

Lemma transpose_nth (n : nat) (rows : list (list V)) (i : nat) (d : V) :
  Forall (fun r => length r = n) rows -> i < n ->
  nth i (transpose n rows) [] = map (fun r => nth i r d) rows.
Proof.
  intros H Hi. induction H as [|r rows Hr Hrows IH]; simpl.
  - apply nth_repeat.
  - rewrite (cons_each_nth r (transpose n rows) d).
    + now rewrite IH.
    + rewrite transpose_length by assumption. exact Hr.
    + lia.
Qed.

End Transpose.

Lemma pivot_rows_shape (df_merged : list (RatingEvent * BookRecord)) :
  Forall (fun r => length r = length (columns (pivot_table df_merged)))
         (values (fillna 0 (pivot_table df_merged))).
Proof.
  unfold fillna, pivot_table. simpl. apply Forall_forall. intros r Hr.
  apply in_map_iff in Hr. destruct Hr as [r' [Hr Hin]]. subst r.
  apply in_map_iff in Hin. destruct Hin as [u [Hu _]]. subst r'.
  now rewrite !length_map.
Qed.

Lemma pivot_rows_length (df_merged : list (RatingEvent * BookRecord)) :
  length (values (fillna 0 (pivot_table df_merged)))
  = length (index (pivot_table df_merged)).
Proof. unfold fillna, pivot_table. simpl. now rewrite !length_map. Qed.

(** The matrix is rectangular: a row for each row label, a cell for each
    column label. *)
Lemma rating_matrix_shape (bs : list BookRecord) (rs : list RatingEvent)
      (mb mu : Z) (m : DataFrame (option string) Z Q) :
  rating_matrix bs rs mb mu = Ok m ->
  length (values m) = length (index m) /\
  Forall (fun row => length row = length (columns m)) (values m).
Proof.
  intros H. apply rating_matrix_inv in H.
  destruct H as [_ [Hc [Hv Hl]]]. rewrite Hv, Hc, Hl. split.
  - apply transpose_length, pivot_rows_shape.
  - rewrite <- pivot_rows_length. apply transpose_shape.
Qed.

(** ** The cells of the matrix *)

Lemma group_app (l1 l2 : list (RatingEvent * BookRecord)) (u : Z) (i : string) :
  group (l1 ++ l2) u i = group l1 u i ++ group l2 u i.
Proof. unfold group. now rewrite filter_app, map_app. Qed.

Lemma group_one_rating (r : RatingEvent) (bs : list BookRecord)
      (u : Z) (i : string) :
  group (map (fun b => (r, b)) bs) u i
  = if Z.eqb (user r) u && String.eqb (isbn r) i
    then map (fun _ => rating r) bs else [].
Proof.
  unfold group. induction bs as [|b bs IH]; simpl.
  - now destruct (_ && _).
  - destruct (Z.eqb (user r) u && String.eqb (isbn r) i) eqn:E; simpl.
    + now rewrite IH.
    + exact IH.
Qed.

(** For an isbn with a single book row the join repeats no rating. *)
Lemma group_merge_single (rs : list RatingEvent) (bs : list BookRecord)
      (u : Z) (i : string) :
  length (book_rows bs i) = 1 ->
  group (merge rs bs) u i = ratings_of rs u i.
Proof.
  intros H1. unfold ratings_of.
  induction rs as [|r rs IH]; [reflexivity | ].
  unfold merge in *. simpl flat_map. rewrite group_app, IH.
  rewrite group_one_rating. simpl filter.
  destruct (Z.eqb (user r) u && String.eqb (isbn r) i) eqn:E; [ | reflexivity].
  apply andb_true_iff in E. destruct E as [_ E].
  apply String.eqb_eq in E. rewrite E.
  fold (book_rows bs i). destruct (book_rows bs i) as [|b [|b' l]];
    simpl in H1; try discriminate. reflexivity.
Qed.

Lemma row_isbn_single (bs : list BookRecord) (rs : list RatingEvent)
      (mb mu : Z) (m : DataFrame (option string) Z Q) (i : string) :
  rating_matrix bs rs mb mu = Ok m ->
  In i (row_isbns bs mb mu rs) ->
  length (book_rows (dropna bs) i) = 1.
Proof.
  intros H Hi. unfold rating_matrix in H. fold (survivors mb mu rs) in H.
  assert (Hok : exists m0,
             pivot_and_label (dropna bs) (survivors mb mu rs) = Ok m0) by eauto.
  apply pivot_and_label_ok in Hok. rewrite Forall_forall in Hok.
  specialize (Hok i Hi).
  unfold row_isbns, pivot_table in Hi. simpl in Hi.
  apply group_keys_In in Hi. apply in_map_iff in Hi.
  destruct Hi as [[r b] [Hr Hin]]. simpl in Hr. apply in_merge in Hin.
  destruct Hin as [_ [Hb Hbi]].
  assert (Hbr : In b (book_rows (dropna bs) i)).
  { unfold book_rows. apply filter_In. split; [exact Hb | ].
    rewrite Hbi, Hr. apply String.eqb_refl. }
  destruct (book_rows (dropna bs) i) as [|b0 l]; [contradiction | ].
  simpl in *. lia.
Qed.

Lemma nth_map_at (A B : Type) (f : A -> B) (l : list A) (n : nat) (x : A) (d : B) :
  nth_error l n = Some x -> nth n (map f l) d = f x.
Proof. intros H. apply nth_error_nth. apply map_nth_error. exact H. Qed.

(** C10: a cell of the matrix is the arithmetic mean of the surviving
    ratings of its (user, isbn) pair, so several ratings of one pair are
    averaged. *)
Theorem C10_cell_is_mean_of_duplicates :
  forall (bs : list BookRecord) (rs : list RatingEvent) (mb mu : Z)
         (m : DataFrame (option string) Z Q),
    rating_matrix bs rs mb mu = Ok m ->
    forall (row col : nat) (i : string) (u : Z),
      nth_error (row_isbns bs mb mu rs) row = Some i ->
      nth_error (columns m) col = Some u ->
      ratings_of (survivors mb mu rs) u i <> [] ->
      nth col (nth row (values m) []) 0%Q
      = mean (ratings_of (survivors mb mu rs) u i).
Proof.
  intros bs rs mb mu m H row col i u Hrow Hcol Hne.
  pose proof (row_isbn_single _ _ _ _ _ H (nth_error_In _ _ Hrow)) as Hone.
  apply rating_matrix_inv in H. destruct H as [_ [Hc [Hv _]]].
  unfold row_isbns in Hrow.
  set (df_merged := merge (survivors mb mu rs) (dropna bs)) in *.
  rewrite Hv. rewrite Hc in Hcol.
  rewrite (@transpose_nth Q _ _ row 0%Q (pivot_rows_shape df_merged))
    by (apply nth_error_Some; congruence).
  unfold fillna, pivot_table in *. simpl in *.
  rewrite !map_map. rewrite (@nth_map_at _ _ _ _ _ _ _ Hcol).
  rewrite map_map. rewrite (@nth_map_at _ _ _ _ _ _ _ Hrow).
  unfold df_merged. rewrite (@group_merge_single _ _ u i Hone).
  destruct (ratings_of (survivors mb mu rs) u i); [contradiction | reflexivity].
Qed.

Lemma C10_cell_is_mean_of_duplicates_witness :
  nth 0 (nth 0 (values twice_matrix) []) 0%Q = mean [4; 8]%Q.
Proof.
  apply (@C10_cell_is_mean_of_duplicates lone_book twice_ratings 0%Z 0%Z
           twice_matrix ltac:(vm_compute; reflexivity) 0 0 "1"%string 1%Z).
  - reflexivity.
  - reflexivity.
  - discriminate.
Defined.

(** The mean of 4 and 8 is 6: neither the first nor the last rating. *)
Lemma mean_of_two_ratings : (mean [4; 8] == 6)%Q.
Proof. reflexivity. Qed.

(** ** The order of the neighbor search *)

Section StronglySortedFacts.

Variables A B : Type.

Lemma StronglySorted_impl (R R' : A -> A -> Prop) (l : list A) :
  (forall x y, R x y -> R' x y) ->
  StronglySorted R l -> StronglySorted R' l.
Proof.
  intros H. induction 1 as [|a l Hs IH Hall]; constructor.
  - exact IH.
  - eapply Forall_impl; [ | exact Hall]. intros y. apply H.
Qed.

Lemma StronglySorted_map (f : A -> B) (R : B -> B -> Prop) (l : list A) :
  StronglySorted (fun x y => R (f x) (f y)) l ->
  StronglySorted R (map f l).
Proof.
  induction 1 as [|a l Hs IH Hall]; simpl; constructor.
  - exact IH.
  - apply Forall_forall. intros b Hb. apply in_map_iff in Hb.
    destruct Hb as [y [Hy Hin]]. subst b.
    rewrite Forall_forall in Hall. auto.
Qed.

Lemma StronglySorted_unmap (f : A -> B) (R : B -> B -> Prop) (l : list A) :
  StronglySorted R (map f l) ->
  StronglySorted (fun x y => R (f x) (f y)) l.
Proof.
  induction l as [|a l IH]; simpl; intros H; [constructor | ].
  apply StronglySorted_inv in H. destruct H as [Hs Hall].
  constructor; [apply IH, Hs | ].
  apply Forall_forall. intros y Hy. rewrite Forall_forall in Hall.
  apply Hall. apply in_map. exact Hy.
Qed.

Lemma firstn_In (n : nat) (l : list A) (x : A) :
  In x (firstn n l) -> In x l.
Proof.
  intros H. rewrite <- (firstn_skipn n l). apply in_or_app. now left.
Qed.

Lemma StronglySorted_firstn (R : A -> A -> Prop) (n : nat) (l : list A) :
  StronglySorted R l -> StronglySorted R (firstn n l).
Proof.
  intros H. revert n. induction H as [|a l Hs IH Hall]; intros [|n]; simpl;
    try constructor.
  - apply IH.
  - apply Forall_forall. intros y Hy. rewrite Forall_forall in Hall.
    apply Hall. eapply firstn_In. exact Hy.
Qed.

Lemma StronglySorted_tl (R : A -> A -> Prop) (l : list A) :
  StronglySorted R l -> StronglySorted R (tl l).
Proof. intros H. destruct H; simpl; [constructor | assumption]. Qed.

End StronglySortedFacts.

Lemma combine_fst_snd (A B : Type) (l : list (A * B)) :
  combine (map fst l) (map snd l) = l.
Proof.
  induction l as [|[a b] l IH]; simpl; [reflexivity | now rewrite IH].
Qed.

Lemma In_tl (A : Type) (x : A) (l : list A) : In x (tl l) -> In x l.
Proof. destruct l; simpl; auto. Qed.

Lemma tl_map (A B : Type) (f : A -> B) (l : list A) :
  tl (map f l) = map f (tl l).
Proof. now destruct l. Qed.

Lemma argsort_sorted (distances : list Q) :
  StronglySorted (fun a b => (fst a <= fst b)%Q) (argsort distances).
Proof.
  unfold argsort.
  apply StronglySorted_impl
    with (R := fun a b : Q * nat => Qle_bool (fst a) (fst b) = true).
  - intros x y H. apply Qle_bool_iff. exact H.
  - apply Sorted_StronglySorted.
    + intros x y z Hxy Hyz. apply Qle_bool_iff in Hxy, Hyz.
      apply Qle_bool_iff. eapply Qle_trans; eassumption.
    + apply insertion_sort_sorted. intros a b.
      destruct (Qlt_le_dec (fst a) (fst b)) as [H|H].
      * left. apply Qle_bool_iff. apply Qlt_le_weak. exact H.
      * right. apply Qle_bool_iff. exact H.
Qed.

Lemma argsort_length (distances : list Q) :
  length (argsort distances) = length distances.
Proof.
  unfold argsort. rewrite insertion_sort_length, length_combine, length_seq.
  apply Nat.min_id.
Qed.

Lemma argsort_positions (distances : list Q) (di : Q * nat) :
  In di (argsort distances) -> snd di < length distances.
Proof.
  unfold argsort. rewrite insertion_sort_In. destruct di as [d i].
  intros H. apply in_combine_r in H. apply in_seq in H. simpl. lia.
Qed.

(** What the neighbor search returns when it returns. *)
Lemma kneighbors_ok (cosine : list Q -> list Q -> Q)
      (fitted : NearestNeighbors) (X : list Q) (n : Z)
      (found : list Q * list nat) :
  kneighbors cosine fitted X n = Ok found ->
  exists nearest,
    nearest = firstn (Z.to_nat n) (argsort (map (cosine X) (fit_X fitted))) /\
    fst found = map fst nearest /\
    snd found = map snd nearest.
Proof.
  unfold kneighbors.
  destruct (n <=? 0)%Z; [discriminate | ].
  destruct (negb _); [discriminate | ].
  destruct (_ <? n)%Z; [discriminate | ].
  intros H. inversion H; subst. simpl. eauto.
Qed.

Lemma mapM_scores (labels : list (option string)) (l : list (Q * nat))
      (recs : list BookRecommendation) :
  mapM (fun di =>
          lbl <- label_at labels (snd di) ;;
          Ok {| title := lbl; similarity_score := (1 - fst di)%Q |}) l
  = Ok recs ->
  map similarity_score recs = map (fun di => (1 - fst di)%Q) l.
Proof.
  revert recs. induction l as [|di l IH]; simpl; intros recs H.
  - inversion H. reflexivity.
  - destruct (label_at labels (snd di)) as [lbl|e]; simpl in H; [ | discriminate].
    destruct (mapM _ l) as [bs|e]; simpl in H; [ | discriminate].
    inversion H; subst. simpl. f_equal. apply IH. reflexivity.
Qed.

(** ** Queries *)

(** C6: a query for a title that labels no row raises the not-found
    error with that title, and a query raises that error in no other
    case. *)
Theorem C6_not_found_iff_absent :
  forall (cosine : list Q -> list Q -> Q) (disk : Disk)
         (books_file ratings_file : string) (mb mu : Z)
         (self : BookRecommender),
    __init__ disk books_file ratings_file mb mu = Ok self ->
    exists data,
      books_data self = Some data /\
      forall (t : string) (k : Z),
        (~ In (Some t) (index data) ->
         get_recommendations cosine self t k = Raise (BookNotFound t)) /\
        (forall t',
            get_recommendations cosine self t k = Raise (BookNotFound t') ->
            t' = t /\ ~ In (Some t) (index data)).
Proof.
  intros cosine disk bf rf mb mu self H.
  destruct (init_inv _ _ _ _ _ H)
    as [bs [rs [data [_ [_ [_ [Hd [Hm _]]]]]]]].
  exists data. split; [exact Hd | ]. intros t k. split.
  - intros Hn. unfold get_recommendations. rewrite Hm, Hd.
    destruct (contains (index data) t) eqn:Hc; [ | reflexivity].
    apply contains_In in Hc. contradiction.
  - intros t' Hq.
    apply (get_recommendations_raise _ _ _ _ Hm Hd) in Hq.
    destruct Hq as [[Hq Hn]|[Hq _]].
    + inversion Hq. auto.
    + inversion Hq.
Qed.

Lemma C6_not_found_iff_absent_witness :
  exists data,
    books_data shelf_recommender = Some data /\
    forall (t : string) (k : Z),
      (~ In (Some t) (index data) ->
       get_recommendations cosine_distance shelf_recommender t k
       = Raise (BookNotFound t)) /\
      (forall t',
          get_recommendations cosine_distance shelf_recommender t k
          = Raise (BookNotFound t') ->
          t' = t /\ ~ In (Some t) (index data)).
Proof.
  apply (@C6_not_found_iff_absent cosine_distance (disk_of shelf shelf_ratings)
           "books.csv" "ratings.csv" 0%Z 0%Z shelf_recommender).
  vm_compute. reflexivity.
Defined.

(** C5: the recommendations come by non-increasing similarity score, and
    each score is one minus the distance the neighbor search reports for
    it, the first reported neighbor left out. *)
Theorem C5_sorted_by_similarity :
  forall (cosine : list Q -> list Q -> Q) (self : BookRecommender)
         (t : string) (k : Z) (recs : list BookRecommendation),
    get_recommendations cosine self t k = Ok recs ->
    StronglySorted
      (fun a b => (similarity_score b <= similarity_score a)%Q) recs /\
    exists fitted data found,
      model self = Some fitted /\
      books_data self = Some data /\
      kneighbors cosine fitted
                 (iloc_reshape data (get_loc (index data) t)) (k + 1)
      = Ok found /\
      StronglySorted Qle (fst found) /\
      map similarity_score recs = map (fun d => (1 - d)%Q) (tl (fst found)).
Proof.
  intros cosine self t k recs. unfold get_recommendations, recommendations_of.
  destruct (model self) as [fitted|] eqn:Hm; [ | discriminate].
  destruct (books_data self) as [data|] eqn:Hd; [ | discriminate].
  destruct (negb (contains (index data) t)); [discriminate | ].
  destruct (kneighbors cosine fitted _ (k + 1)) as [found|e] eqn:Hk;
    simpl; [ | discriminate].
  intros H. apply mapM_scores in H.
  destruct (kneighbors_ok _ _ _ _ Hk) as [nearest [Hn [Hf Hs]]].
  assert (Hsorted : StronglySorted (fun a b => (fst a <= fst b)%Q) nearest).
  { rewrite Hn. apply StronglySorted_firstn, argsort_sorted. }
  rewrite Hf, Hs, !tl_map, combine_fst_snd in H.
  assert (Hscores : map similarity_score recs
                    = map (fun d => (1 - d)%Q) (tl (fst found))).
  { rewrite H, Hf, tl_map, map_map. reflexivity. }
  split.
  - apply StronglySorted_unmap with (f := similarity_score)
                                    (R := fun x y => (y <= x)%Q).
    rewrite H. apply StronglySorted_map.
    apply StronglySorted_impl with (R := fun a b : Q * nat => (fst a <= fst b)%Q).
    + intros x y Hxy. unfold Qminus. apply Qplus_le_r.
      apply Qopp_le_compat. exact Hxy.
    + apply StronglySorted_tl. exact Hsorted.
  - exists fitted, data, found. repeat split; try assumption.
    rewrite Hf. apply StronglySorted_map. exact Hsorted.
Qed.

Lemma C5_sorted_by_similarity_witness :
  StronglySorted
    (fun a b => (similarity_score b <= similarity_score a)%Q) shelf_answer /\
  exists fitted data found,
    model shelf_recommender = Some fitted /\
    books_data shelf_recommender = Some data /\
    kneighbors cosine_distance fitted
               (iloc_reshape data (get_loc (index data) "A")) (2 + 1)
    = Ok found /\
    StronglySorted Qle (fst found) /\
    map similarity_score shelf_answer
    = map (fun d => (1 - d)%Q) (tl (fst found)).
Proof.
  apply (@C5_sorted_by_similarity cosine_distance shelf_recommender
           "A" 2%Z shelf_answer).
  vm_compute. reflexivity.
Defined.

(** ** How many recommendations a query returns *)

Lemma get_loc_from_bounds (s : nat) (labels : list (option string)) (t : string) :
  Forall (fun p => s <= p < s + length labels) (get_loc_from s labels t).
Proof.
  revert s. induction labels as [|l labels IH]; intros s; simpl.
  - constructor.
  - assert (H : Forall (fun p => s <= p < s + S (length labels))
                       (get_loc_from (S s) labels t)).
    { eapply Forall_impl; [ | apply IH]. simpl. intros p Hp. lia. }
    destruct (label_eqb l t); [constructor; [lia | exact H] | exact H].
Qed.

Lemma get_loc_from_absent (s : nat) (labels : list (option string)) (t : string) :
  contains labels t = false -> get_loc_from s labels t = [].
Proof.
  revert s. induction labels as [|l labels IH]; intros s; simpl;
    [reflexivity | ].
  destruct (label_eqb l t); simpl; [discriminate | apply IH].
Qed.

Lemma occurrences_one (labels : list (option string)) (t : string) :
  occurrences labels t = 1 ->
  contains labels t = true /\
  exists p, get_loc labels t = [p] /\ p < length labels.
Proof.
  unfold occurrences, get_loc. intros H. split.
  - destruct (contains labels t) eqn:E; [reflexivity | ].
    rewrite (get_loc_from_absent 0 _ _ E) in H. discriminate.
  - pose proof (get_loc_from_bounds 0 labels t) as Hb.
    destruct (get_loc_from 0 labels t) as [|p [|q l]]; try discriminate.
    exists p. split; [reflexivity | ]. inversion Hb; subst. lia.
Qed.

Lemma mapM_ok (A B : Type) (f : A -> result B) (l : list A) :
  (forall a, In a l -> exists b, f a = Ok b) ->
  exists bs, mapM f l = Ok bs.
Proof.
  induction l as [|a l IH]; simpl; intros H; [eauto | ].
  destruct (H a (or_introl eq_refl)) as [b Hb]. rewrite Hb. simpl.
  destruct IH as [bs Hbs]; [intros a' Ha'; apply H; now right | ].
  rewrite Hbs. simpl. eauto.
Qed.

Lemma kneighbors_within (cosine : list Q -> list Q -> Q)
      (fitted : NearestNeighbors) (X : list Q) (n : Z) :
  (0 < n)%Z -> length X = n_features_in fitted ->
  (n <= Z.of_nat (n_samples_fit fitted))%Z ->
  kneighbors cosine fitted X n
  = Ok (map fst (firstn (Z.to_nat n) (argsort (map (cosine X) (fit_X fitted)))),
        map snd (firstn (Z.to_nat n) (argsort (map (cosine X) (fit_X fitted))))).
Proof.
  intros Hn Hx Hs. unfold kneighbors.
  destruct (n <=? 0)%Z eqn:E1; [apply Z.leb_le in E1; lia | ].
  rewrite Hx, Nat.eqb_refl. simpl.
  destruct (_ <? n)%Z eqn:E2; [apply Z.ltb_lt in E2; lia | reflexivity].
Qed.

Lemma kneighbors_beyond (cosine : list Q -> list Q -> Q)
      (fitted : NearestNeighbors) (X : list Q) (n : Z) :
  (0 < n)%Z -> length X = n_features_in fitted ->
  (Z.of_nat (n_samples_fit fitted) < n)%Z ->
  kneighbors cosine fitted X n
  = Raise (TooManyNeighbors n (n_samples_fit fitted)).
Proof.
  intros Hn Hx Hs. unfold kneighbors.
  destruct (n <=? 0)%Z eqn:E1; [apply Z.leb_le in E1; lia | ].
  rewrite Hx, Nat.eqb_refl. simpl.
  destruct (_ <? n)%Z eqn:E2; [reflexivity | apply Z.ltb_ge in E2; lia].
Qed.

(** C2, as stated, fails: with a single row, a query for one
    recommendation raises the error of the neighbor search; it does not
    return an empty sequence. *)
Lemma C2_counterexample :
  __init__ (disk_of lone_book lone_ratings) "books.csv" "ratings.csv" 0 0
  = Ok lone_recommender /\
  In (Some "Jewel"%string) (index lone_matrix) /\
  get_recommendations cosine_distance lone_recommender "Jewel" 1
  = Raise (TooManyNeighbors 2 1).
Proof.
  split; [vm_compute; reflexivity | ].
  split; [left; reflexivity | vm_compute; reflexivity].
Qed.

(** C2, amended: for a title that labels exactly one row, a query for
    [k] recommendations with [0 <= k] and [k] below the number of rows
    returns exactly [k] of them; with [k] at or above the number of rows
    it raises the error of the neighbor search. *)
Theorem C2_exactly_k_within_rows :
  forall (cosine : list Q -> list Q -> Q) (disk : Disk)
         (books_file ratings_file : string) (mb mu : Z)
         (self : BookRecommender),
    __init__ disk books_file ratings_file mb mu = Ok self ->
    exists data,
      books_data self = Some data /\
      forall (t : string) (k : Z),
        occurrences (index data) t = 1 ->
        ((0 <= k < Z.of_nat (length (index data)))%Z ->
         exists recs,
           get_recommendations cosine self t k = Ok recs /\
           length recs = Z.to_nat k) /\
        ((Z.of_nat (length (index data)) <= k)%Z ->
         get_recommendations cosine self t k
         = Raise (TooManyNeighbors (k + 1) (length (index data)))).
Proof.
  intros cosine disk bf rf mb mu self H.
  destruct (init_inv _ _ _ _ _ H)
    as [bs [rs [data [_ [_ [Hmat [Hd [Hm _]]]]]]]].
  destruct (rating_matrix_shape _ _ _ _ Hmat) as [Hlen Hrows].
  exists data. split; [exact Hd | ]. intros t k Hocc.
  destruct (occurrences_one _ _ Hocc) as [Hc [p [Hp Hlt]]].
  assert (HX : length (iloc_reshape data (get_loc (index data) t))
               = length (columns data)).
  { rewrite Hp. unfold iloc_reshape. simpl. rewrite app_nil_r.
    rewrite Forall_forall in Hrows. apply Hrows. apply nth_In. lia. }
  unfold get_recommendations, recommendations_of.
  rewrite Hm, Hd, Hc. simpl negb. cbv iota.
  split.
  - intros Hk.
    rewrite kneighbors_within; [ | lia | exact HX | simpl; lia]. simpl.
    rewrite !tl_map, combine_fst_snd.
    set (nearest := firstn (Z.to_nat (k + 1)) _).
    destruct (mapM_ok
                (fun di : Q * nat =>
                   lbl <- label_at (index data) (snd di) ;;
                   Ok {| title := lbl; similarity_score := (1 - fst di)%Q |})
                (tl nearest)) as [recs Hrecs].
    { intros di Hin.
      assert (Hpos : snd di < length (index data)).
      { rewrite <- Hlen.
        rewrite <- (length_map
                      (cosine (iloc_reshape data (get_loc (index data) t)))
                      (values data)).
        apply argsort_positions. unfold nearest in Hin.
        eapply firstn_In. apply In_tl. exact Hin. }
      unfold label_at. destruct (nth_error (index data) (snd di)) eqn:E.
      - simpl. eauto.
      - apply nth_error_None in E. lia. }
    exists recs. split; [exact Hrecs | ].
    rewrite (mapM_length _ _ Hrecs). unfold nearest.
    rewrite length_tl, length_firstn, argsort_length, length_map, Hlen. lia.
  - intros Hk. rewrite kneighbors_beyond; [reflexivity | lia | exact HX | simpl; lia].
Qed.

Lemma C2_exactly_k_within_rows_witness :
  exists data,
    books_data shelf_recommender = Some data /\
    forall (t : string) (k : Z),
      occurrences (index data) t = 1 ->
      ((0 <= k < Z.of_nat (length (index data)))%Z ->
       exists recs,
         get_recommendations cosine_distance shelf_recommender t k = Ok recs /\
         length recs = Z.to_nat k) /\
      ((Z.of_nat (length (index data)) <= k)%Z ->
       get_recommendations cosine_distance shelf_recommender t k
       = Raise (TooManyNeighbors (k + 1) (length (index data)))).
Proof.
  apply (@C2_exactly_k_within_rows cosine_distance (disk_of shelf shelf_ratings)
           "books.csv" "ratings.csv" 0%Z 0%Z shelf_recommender).
  vm_compute. reflexivity.
Defined.

(** Both branches at work on the three-book example: two
    recommendations for [k = 2], the error for [k = 3]. *)
Lemma shelf_queries :
  get_recommendations cosine_distance shelf_recommender "A" 2 = Ok shelf_answer /\
  get_recommendations cosine_distance shelf_recommender "A" 3
  = Raise (TooManyNeighbors 4 3).
Proof. split; vm_compute; reflexivity. Qed.

(** ** The query row among the recommendations *)

(** C1: what the code does where the claim fails.  Two books have the
    same ratings from the same users, so both rows are at the same
    distance from a query for either; the search lists the first row
    first, the query drops it, and the query for the second title returns
    the second title itself.  This holds whatever the metric. *)
Theorem C1_tied_row_returns_the_query :
  forall cosine : list Q -> list Q -> Q,
    __init__ (disk_of twins twin_ratings) "books.csv" "ratings.csv" 0 0
    = Ok twin_recommender /\
    get_recommendations cosine twin_recommender "B" 1
    = Ok [ {| title := Some "B"%string;
              similarity_score := (1 - cosine [3; 4] [3; 4])%Q |} ].
Proof.
  intros cosine. split; [vm_compute; reflexivity | ].
  unfold get_recommendations, recommendations_of, twin_recommender,
    kneighbors, argsort. simpl.
  assert (Hr : Qle_bool (cosine [3; 4] [3; 4])%Q (cosine [3; 4] [3; 4])%Q = true)
    by (apply Qle_bool_iff, Qle_refl).
  rewrite Hr. simpl. reflexivity.
Qed.

(** The same query under the metric of the examples: the title asked
    for comes back with similarity 1. *)
Lemma twin_query :
  get_recommendations cosine_distance twin_recommender "B" 1
  = Ok [ {| title := Some "B"%string; similarity_score := 1 |} ].
Proof. vm_compute. reflexivity. Qed.

(** The queries for the two titles send the same row to the search and
    get the same answer.  If it lists row 0 first, the query for "B"
    returns "B"; if it lists row 1 first, the query for "A" returns "A". *)
Lemma twin_tie_either_order (d : Q) :
  iloc_reshape twin_matrix (get_loc (index twin_matrix) "A")
  = iloc_reshape twin_matrix (get_loc (index twin_matrix) "B") /\
  recommendations_of twin_matrix [d; d] [0; 1]
  = Ok [ {| title := Some "B"%string; similarity_score := (1 - d)%Q |} ] /\
  recommendations_of twin_matrix [d; d] [1; 0]
  = Ok [ {| title := Some "A"%string; similarity_score := (1 - d)%Q |} ].
Proof. repeat split; reflexivity. Qed.

(** * Further properties *)

(** ** What the constructor returns or raises *)


Lemma row_isbns_In (bs : list BookRecord) (rs : list RatingEvent)
      (mb mu : Z) (i : string) :
  In i (row_isbns bs mb mu rs) <->
  exists r, In r (joined bs mb mu rs) /\ isbn r = i.
Proof.
  unfold row_isbns, pivot_table, joined. simpl.
  rewrite group_keys_In, (in_map_merge isbn), in_map_iff.
  split; intros [r [H1 H2]]; exists r; auto.
Qed.

Lemma matrix_columns_In (bs : list BookRecord) (rs : list RatingEvent)
      (mb mu : Z) (m : DataFrame (option string) Z Q) (u : Z) :
  rating_matrix bs rs mb mu = Ok m ->
  (In u (columns m) <-> exists r, In r (joined bs mb mu rs) /\ user r = u).
Proof.
  intros H. apply rating_matrix_inv in H. destruct H as [_ [Hc _]].
  rewrite Hc. unfold pivot_table, joined. simpl.
  rewrite group_keys_In, (in_map_merge user), in_map_iff.
  split; intros [r [H1 H2]]; exists r; auto.
Qed.






Section ParsedFiles.

Variable disk : Disk.
Variables books_file ratings_file : string.
Variables mb mu : Z.
Variable bs : list BookRecord.
Variable rs : list RatingEvent.
Hypothesis books_parsed : books_at disk books_file = Rows bs.
Hypothesis ratings_parsed : ratings_at disk ratings_file = Rows rs.




End ParsedFiles.




(** The two failures on small inputs: thresholds that no rating passes,
    and a books file that lists an isbn twice. *)
Lemma constructor_failures :
  __init__ (disk_of shelf shelf_ratings) "books.csv" "ratings.csv" 100 10
  = Raise (EmptyArray 0 0) /\
  __init__ (disk_of (lone_book ++ lone_book) lone_ratings)
           "books.csv" "ratings.csv" 0 0
  = Raise (LengthMismatch 1 2).
Proof. split; vm_compute; reflexivity. Qed.





(** With a ratings file that parses to no rows nothing reaches the
    pivot, and the constructor fails at the fit. *)
Lemma constructor_on_no_ratings :
  __init__ (disk_of shelf []) "books.csv" "ratings.csv" 0 0
  = Raise (EmptyArray 0 0).
Proof. vm_compute. reflexivity. Qed.

(** ** The labels and the cells of the matrix *)

Lemma join_title_single (ls : list string) (bs : list BookRecord) :
  Forall (fun i => length (book_rows bs i) = 1) ls ->
  Forall2 (fun i l => exists b, book_rows bs i = [b] /\ l = book_title b)
          ls (join_title ls bs).
Proof.
  induction 1 as [|i ls Hi _ IH]; unfold join_title; simpl.
  - constructor.
  - fold (book_rows bs i). fold (join_title ls bs).
    destruct (book_rows bs i) as [|b [|b' l]] eqn:E; try discriminate.
    simpl. constructor; [eauto | exact IH].
Qed.

(** Each row of the matrix is labelled by the title of the one complete
    book row of its isbn; no row label is missing. *)
Theorem row_labels_are_titles :
  forall (bs : list BookRecord) (rs : list RatingEvent) (mb mu : Z)
         (m : DataFrame (option string) Z Q),
    rating_matrix bs rs mb mu = Ok m ->
    Forall2 (fun i l =>
               exists b t,
                 book_rows (dropna bs) i = [b] /\
                 In b bs /\
                 book_isbn b = Some i /\
                 book_title b = Some t /\
                 l = Some t)
            (row_isbns bs mb mu rs) (index m).
Proof.
  intros bs rs mb mu m H.
  assert (Hone : Forall (fun i => length (book_rows (dropna bs) i) = 1)
                        (row_isbns bs mb mu rs)).
  { apply Forall_forall. intros i Hi. eapply row_isbn_single; eassumption. }
  apply rating_matrix_inv in H. destruct H as [Hi _]. rewrite Hi.
  fold (row_isbns bs mb mu rs).
  eapply Forall2_impl; [ | apply join_title_single; exact Hone].
  intros i l [b [Hb Hl]].
  assert (Hin : In b (book_rows (dropna bs) i)) by (rewrite Hb; now left).
  unfold book_rows, dropna in Hin. rewrite !filter_In in Hin.
  destruct Hin as [[Hbs Hc] Hm]. unfold complete in Hc.
  destruct (book_isbn b) as [i'|] eqn:Ei; [ | discriminate].
  destruct (book_title b) as [t|] eqn:Et; [ | discriminate].
  apply String.eqb_eq in Hm. subst i'.
  exists b, t. repeat split; assumption.
Qed.

Lemma row_labels_are_titles_witness :
  Forall2 (fun i l =>
             exists b t,
               book_rows (dropna shelf) i = [b] /\
               In b shelf /\
               book_isbn b = Some i /\
               book_title b = Some t /\
               l = Some t)
          (row_isbns shelf 0 0 shelf_ratings) (index shelf_matrix).
Proof.
  apply (@row_labels_are_titles shelf shelf_ratings 0%Z 0%Z shelf_matrix).
  vm_compute. reflexivity.
Defined.

Lemma matrix_cell (bs : list BookRecord) (rs : list RatingEvent) (mb mu : Z)
      (m : DataFrame (option string) Z Q)
      (row col : nat) (i : string) (u : Z) :
  rating_matrix bs rs mb mu = Ok m ->
  nth_error (row_isbns bs mb mu rs) row = Some i ->
  nth_error (columns m) col = Some u ->
  nth col (nth row (values m) []) 0%Q
  = match ratings_of (survivors mb mu rs) u i with
    | [] => 0%Q
    | q :: l => mean (q :: l)
    end.
Proof.
  intros H Hrow Hcol.
  pose proof (row_isbn_single _ _ _ _ _ H (nth_error_In _ _ Hrow)) as Hone.
  apply rating_matrix_inv in H. destruct H as [_ [Hc [Hv _]]].
  unfold row_isbns in Hrow.
  set (df_merged := merge (survivors mb mu rs) (dropna bs)) in *.
  rewrite Hv. rewrite Hc in Hcol.
  rewrite (@transpose_nth Q _ _ row 0%Q (pivot_rows_shape df_merged))
    by (apply nth_error_Some; congruence).
  unfold fillna, pivot_table in *. simpl in *.
  rewrite !map_map. rewrite (@nth_map_at _ _ _ _ _ _ _ Hcol).
  rewrite map_map. rewrite (@nth_map_at _ _ _ _ _ _ _ Hrow).
  unfold df_merged. rewrite (@group_merge_single _ _ u i Hone).
  destruct (ratings_of (survivors mb mu rs) u i); reflexivity.
Qed.

(** A cell whose user has no surviving rating of the row's isbn holds 0. *)
Theorem unrated_cell_is_zero :
  forall (bs : list BookRecord) (rs : list RatingEvent) (mb mu : Z)
         (m : DataFrame (option string) Z Q),
    rating_matrix bs rs mb mu = Ok m ->
    forall (row col : nat) (i : string) (u : Z),
      nth_error (row_isbns bs mb mu rs) row = Some i ->
      nth_error (columns m) col = Some u ->
      ratings_of (survivors mb mu rs) u i = [] ->
      nth col (nth row (values m) []) 0%Q = 0%Q.
Proof.
  intros bs rs mb mu m H row col i u Hrow Hcol Hnone.
  rewrite (@matrix_cell _ _ _ _ _ _ _ _ _ H Hrow Hcol), Hnone. reflexivity.
Qed.

Lemma unrated_cell_is_zero_witness :
  nth 2 (nth 0 (values shelf_matrix) []) 0%Q = 0%Q.
Proof.
  apply (@unrated_cell_is_zero shelf shelf_ratings 0%Z 0%Z shelf_matrix
           ltac:(vm_compute; reflexivity) 0 2 "1"%string 3%Z);
    reflexivity.
Defined.

Lemma sorted_strict (A : Type) (leb : A -> A -> bool) (R : A -> A -> Prop)
      (l : list A) :
  (forall a b, leb a b = true -> a <> b -> R a b) ->
  Sorted (fun a b => leb a b = true) l -> NoDup l -> Sorted R l.
Proof.
  intros HR. induction 1 as [|a l Hs IH Hhd]; intros Hnd; constructor.
  - apply IH. now inversion Hnd.
  - destruct Hhd as [|b l Hab]; constructor.
    apply HR; [exact Hab | ]. intros E. subst b.
    inversion Hnd as [|? ? Hnin _]. apply Hnin. now left.
Qed.

(** The columns come by strictly increasing user identifier and the rows
    by strictly increasing isbn: the order of the rows is that of the
    isbns, not of the titles. *)
Theorem labels_strictly_increasing :
  forall (bs : list BookRecord) (rs : list RatingEvent) (mb mu : Z)
         (m : DataFrame (option string) Z Q),
    rating_matrix bs rs mb mu = Ok m ->
    Sorted Z.lt (columns m) /\
    Sorted (fun a b => String.ltb a b = true) (row_isbns bs mb mu rs).
Proof.
  intros bs rs mb mu m H. apply rating_matrix_inv in H.
  destruct H as [_ [Hc _]]. rewrite Hc.
  unfold row_isbns, pivot_table. simpl. split.
  - apply sorted_strict with (leb := Z.leb).
    + intros a b Hab Hne. apply Z.leb_le in Hab. lia.
    + apply insertion_sort_sorted. intros a b.
      destruct (Z.le_ge_cases a b); [left | right]; now apply Z.leb_le.
    + apply group_keys_NoDup.
  - apply sorted_strict with (leb := String.leb).
    + intros a b Hab Hne. unfold String.leb in Hab. unfold String.ltb.
      destruct (String.compare a b) eqn:E; try discriminate; [ | reflexivity].
      apply String.compare_eq_iff in E. contradiction.
    + apply insertion_sort_sorted. apply String.leb_total.
    + apply group_keys_NoDup.
Qed.

Lemma labels_strictly_increasing_witness :
  Sorted Z.lt (columns shelf_matrix) /\
  Sorted (fun a b => String.ltb a b = true) (row_isbns shelf 0 0 shelf_ratings).
Proof.
  apply (@labels_strictly_increasing shelf shelf_ratings 0%Z 0%Z shelf_matrix).
  vm_compute. reflexivity.
Defined.

(** ** What the activity filters keep *)

Section KeyCounts.

Variable K : Type.
Variable key : RatingEvent -> K.
Variable eqb : K -> K -> bool.
Hypothesis eqb_spec : forall a b, eqb a b = true <-> a = b.

(** A filter on the key keeps all the ratings of a key it accepts. *)
Lemma count_filter_key (g : K -> bool) (l : list RatingEvent) (k : K) :
  g k = true ->
  length (filter (fun r => eqb (key r) k) (filter (fun r => g (key r)) l))
  = length (filter (fun r => eqb (key r) k) l).
Proof.
  intros Hg. induction l as [|r l IH]; simpl; [reflexivity | ].
  destruct (eqb (key r) k) eqn:E; destruct (g (key r)) eqn:G; simpl;
    rewrite ?E; simpl; try (now rewrite IH).
  apply eqb_spec in E. congruence.
Qed.

Lemma count_key_pos (l : list RatingEvent) (r : RatingEvent) :
  In r l -> 1 <= length (filter (fun r' => eqb (key r') (key r)) l).
Proof.
  intros Hin.
  assert (H : In r (filter (fun r' => eqb (key r') (key r)) l)).
  { apply filter_In. split; [exact Hin | ]. now apply eqb_spec. }
  destruct (filter _ l); [contradiction | simpl; lia].
Qed.

End KeyCounts.

Lemma filter_all (A : Type) (p : A -> bool) (l : list A) :
  (forall x, In x l -> p x = true) -> filter p l = l.
Proof.
  intros H. apply forallb_filter_id. apply forallb_forall. exact H.
Qed.

(** Every column belongs to a user with more than [min_user_ratings]
    ratings in the ratings file, and every row to an isbn with more than
    [min_book_ratings] ratings among those that reach the pivot. *)
Theorem activity_thresholds_hold :
  forall (bs : list BookRecord) (rs : list RatingEvent) (mb mu : Z)
         (m : DataFrame (option string) Z Q),
    rating_matrix bs rs mb mu = Ok m ->
    (forall u, In u (columns m) ->
               (mu < Z.of_nat (rating_count_of_user rs u))%Z) /\
    (forall i, In i (row_isbns bs mb mu rs) ->
               (mb < Z.of_nat (rating_count_of_isbn (joined bs mb mu rs) i))%Z).
Proof.
  intros bs rs mb mu m H. split.
  - intros u Hu. apply (@matrix_columns_In bs rs mb mu m u H) in Hu.
    destruct Hu as [r [Hr Hu]]. subst u.
    unfold joined in Hr. apply filter_In in Hr. destruct Hr as [Hr _].
    rewrite survivors_spec in Hr.
    unfold spec_activity_filter, spec_item_filter, spec_user_filter in Hr.
    rewrite !filter_In in Hr. destruct Hr as [[_ Hc] _].
    apply Z.ltb_lt. exact Hc.
  - intros i Hi. apply row_isbns_In in Hi. destruct Hi as [r [Hr Hi]].
    subst i. unfold joined in *. apply filter_In in Hr.
    destruct Hr as [Hr Hbook]. rewrite survivors_spec in *.
    unfold spec_activity_filter in *.
    set (U := spec_user_filter mu rs) in *.
    unfold spec_item_filter in Hr. apply filter_In in Hr.
    destruct Hr as [_ Hc].
    unfold rating_count_of_isbn.
    change (filter (has_book bs) (spec_item_filter mb U))
      with (filter (fun r' => has_book bs {| user := 0; isbn := isbn r';
                                              rating := 0 |})
                   (spec_item_filter mb U)).
    rewrite (count_filter_key isbn String.eqb String.eqb_eq
               (fun k => has_book bs {| user := 0; isbn := k; rating := 0 |}))
      by exact Hbook.
    unfold spec_item_filter.
    rewrite (count_filter_key isbn String.eqb String.eqb_eq
               (fun k => (mb <? Z.of_nat (rating_count_of_isbn U k))%Z))
      by exact Hc.
    apply Z.ltb_lt. exact Hc.
Qed.

Lemma activity_thresholds_hold_witness :
  (forall u, In u (columns shelf_matrix) ->
             (0 < Z.of_nat (rating_count_of_user shelf_ratings u))%Z) /\
  (forall i, In i (row_isbns shelf 0 0 shelf_ratings) ->
             (0 < Z.of_nat (rating_count_of_isbn
                              (joined shelf 0 0 shelf_ratings) i))%Z).
Proof.
  apply (@activity_thresholds_hold shelf shelf_ratings 0%Z 0%Z shelf_matrix).
  vm_compute. reflexivity.
Defined.

(** Each filter is idempotent: a user kept by the user filter keeps all
    of its ratings, an isbn kept by the item filter keeps all of its
    ratings, so a second pass of the same filter removes nothing. *)
Theorem filters_idempotent :
  forall (rs : list RatingEvent) (mb mu : Z),
    filter_active_users mu (filter_active_users mu rs)
    = filter_active_users mu rs /\
    filter_frequent_books mb (filter_frequent_books mb rs)
    = filter_frequent_books mb rs.
Proof.
  intros rs mb mu. rewrite !filter_active_users_spec, !filter_frequent_books_spec.
  split.
  - unfold spec_user_filter at 1. apply filter_all. intros r Hr.
    unfold rating_count_of_user, spec_user_filter in *.
    rewrite (count_filter_key user Z.eqb Z.eqb_eq
               (fun k => (mu <? Z.of_nat (rating_count_of_user rs k))%Z));
      apply filter_In in Hr; tauto.
  - unfold spec_item_filter at 1. apply filter_all. intros r Hr.
    unfold rating_count_of_isbn, spec_item_filter in *.
    rewrite (count_filter_key isbn String.eqb String.eqb_eq
               (fun k => (mb <? Z.of_nat (rating_count_of_isbn rs k))%Z));
      apply filter_In in Hr; tauto.
Qed.

(** The two filters together are not: the item filter can leave a user
    with no more ratings than [min_user_ratings], and the pipeline does
    not filter the users again. *)
Lemma survivors_not_closed :
  survivors 1 1 (rated 1 "1" 5 :: rated 1 "2" 5 :: rated 2 "1" 4 :: rated 2 "3" 4 :: [])
  = [rated 1 "1" 5; rated 2 "1" 4].
Proof. vm_compute. reflexivity. Qed.

(** With both thresholds at 0 or below the filters keep every rating. *)
Theorem nonpositive_thresholds_keep_all :
  forall (rs : list RatingEvent) (mb mu : Z),
    (mb <= 0)%Z -> (mu <= 0)%Z ->
    filter_frequent_books mb (filter_active_users mu rs) = rs.
Proof.
  intros rs mb mu Hb Hu.
  assert (Husers : filter_active_users mu rs = rs).
  { rewrite filter_active_users_spec. apply filter_all. intros r Hr.
    apply Z.ltb_lt. unfold rating_count_of_user.
    pose proof (count_key_pos user Z.eqb Z.eqb_eq rs r Hr). lia. }
  rewrite Husers, filter_frequent_books_spec. apply filter_all. intros r Hr.
  apply Z.ltb_lt. unfold rating_count_of_isbn.
  pose proof (count_key_pos isbn String.eqb String.eqb_eq rs r Hr). lia.
Qed.

Lemma nonpositive_thresholds_keep_all_witness :
  filter_frequent_books 0 (filter_active_users (-3) shelf_ratings)
  = shelf_ratings.
Proof.
  apply (@nonpositive_thresholds_keep_all shelf_ratings 0%Z (-3)%Z); lia.
Defined.

(** ** How a query on a built recommender ends *)

(** What the constructor establishes. *)
Lemma built_recommender (disk : Disk) (bf rf : string) (mb mu : Z)
      (self : BookRecommender) :
  __init__ disk bf rf mb mu = Ok self ->
  exists data,
    books_data self = Some data /\
    model self = Some {| fit_X := values data;
                         n_samples_fit := length (index data);
                         n_features_in := length (columns data) |} /\
    length (values data) = length (index data) /\
    Forall (fun row => length row = length (columns data)) (values data) /\
    length (index data) <> 0 /\
    length (columns data) <> 0.
Proof.
  intros H.
  destruct (init_inv _ _ _ _ _ H)
    as [bs [rs [data [_ [_ [Hmat [Hd [Hm [Hr Hc]]]]]]]]].
  destruct (rating_matrix_shape _ _ _ _ Hmat) as [Hlen Hrows].
  exists data. repeat split; assumption.
Qed.

Lemma get_loc_from_sound (s : nat) (labels : list (option string))
      (t : string) (p : nat) :
  In p (get_loc_from s labels t) ->
  s <= p /\ nth_error labels (p - s) = Some (Some t).
Proof.
  revert s. induction labels as [|l labels IH]; intros s; simpl;
    [contradiction | ].
  assert (Hrest : In p (get_loc_from (S s) labels t) ->
                  s <= p /\ nth_error (l :: labels) (p - s) = Some (Some t)).
  { intros Hin. apply IH in Hin. destruct Hin as [Hle Hn]. split; [lia | ].
    replace (p - s) with (S (p - S s)) by lia. exact Hn. }
  destruct (label_eqb l t) eqn:E; [ | exact Hrest].
  intros [Hp | Hin]; [ | exact (Hrest Hin)].
  subst p. split; [lia | ]. rewrite Nat.sub_diag. simpl.
  destruct l as [x|]; simpl in E; [ | discriminate].
  apply String.eqb_eq in E. now subst.
Qed.

Lemma get_loc_from_complete (s : nat) (labels : list (option string))
      (t : string) (i : nat) :
  nth_error labels i = Some (Some t) ->
  In (s + i) (get_loc_from s labels t).
Proof.
  revert s i. induction labels as [|l labels IH]; intros s [|i] H;
    simpl in *; try discriminate.
  - inversion H; subst. simpl. rewrite String.eqb_refl, Nat.add_0_r. now left.
  - replace (s + S i) with (S s + i) by lia.
    destruct (label_eqb l t); [right | ]; apply IH; exact H.
Qed.

Lemma occurrences_pos (labels : list (option string)) (t : string) :
  contains labels t = true -> 1 <= occurrences labels t.
Proof.
  intros H. apply contains_In in H. apply In_nth_error in H.
  destruct H as [i Hi]. apply (get_loc_from_complete 0) in Hi.
  unfold occurrences, get_loc.
  destruct (get_loc_from 0 labels t); [contradiction | simpl; lia].
Qed.

Lemma iloc_reshape_length (I C : Type) (data : DataFrame I C Q)
      (idx : list nat) (ncols : nat) :
  Forall (fun row => length row = ncols) (values data) ->
  Forall (fun p => p < length (values data)) idx ->
  length (iloc_reshape data idx) = length idx * ncols.
Proof.
  intros Hrows. unfold iloc_reshape.
  induction 1 as [|p idx Hp _ IH]; simpl; [reflexivity | ].
  rewrite length_app, IH. f_equal.
  rewrite Forall_forall in Hrows. apply Hrows. apply nth_In. exact Hp.
Qed.

(** The row a query sends to the search is as wide as the rows that
    carry the title, laid side by side. *)
Lemma query_row_length (data : DataFrame (option string) Z Q) (t : string) :
  length (values data) = length (index data) ->
  Forall (fun row => length row = length (columns data)) (values data) ->
  length (iloc_reshape data (get_loc (index data) t))
  = occurrences (index data) t * length (columns data).
Proof.
  intros Hlen Hrows. unfold occurrences.
  apply iloc_reshape_length; [exact Hrows | ].
  unfold get_loc. rewrite Hlen.
  eapply Forall_impl; [ | apply get_loc_from_bounds].
  simpl. intros p Hp. lia.
Qed.

Lemma kneighbors_cases (cosine : list Q -> list Q -> Q)
      (fitted : NearestNeighbors) (X : list Q) (n : Z) :
  ((n <= 0)%Z /\
   kneighbors cosine fitted X n = Raise (NonPositiveNeighbors n)) \/
  ((0 < n)%Z /\ length X <> n_features_in fitted /\
   kneighbors cosine fitted X n
   = Raise (FeatureMismatch (length X) (n_features_in fitted))) \/
  ((0 < n)%Z /\ length X = n_features_in fitted /\
   (Z.of_nat (n_samples_fit fitted) < n)%Z /\
   kneighbors cosine fitted X n
   = Raise (TooManyNeighbors n (n_samples_fit fitted))) \/
  ((0 < n)%Z /\ length X = n_features_in fitted /\
   (n <= Z.of_nat (n_samples_fit fitted))%Z /\
   kneighbors cosine fitted X n
   = Ok (map fst (firstn (Z.to_nat n)
                         (argsort (map (cosine X) (fit_X fitted)))),
         map snd (firstn (Z.to_nat n)
                         (argsort (map (cosine X) (fit_X fitted)))))).
Proof.
  unfold kneighbors.
  destruct (n <=? 0)%Z eqn:E1.
  { apply Z.leb_le in E1. left. auto. }
  apply Z.leb_gt in E1. right.
  destruct (Nat.eqb (length X) (n_features_in fitted)) eqn:E2; simpl.
  - apply Nat.eqb_eq in E2. right.
    destruct (Z.of_nat (n_samples_fit fitted) <? n)%Z eqn:E3.
    + apply Z.ltb_lt in E3. left. auto.
    + apply Z.ltb_ge in E3. right. auto.
  - apply Nat.eqb_neq in E2. left. auto.
Qed.

Lemma nearest_positions_valid (distances : list Q) (n : nat) (di : Q * nat) :
  In di (tl (firstn n (argsort distances))) -> snd di < length distances.
Proof.
  intros H. apply argsort_positions. eapply firstn_In. apply In_tl. exact H.
Qed.

(** The loop over the neighbors never fails on what the search returns. *)
Lemma recommendations_of_nearest (data : DataFrame (option string) Z Q)
      (distances : list Q) (n : nat) :
  length distances = length (index data) ->
  exists recs,
    recommendations_of data
      (map fst (firstn n (argsort distances)))
      (map snd (firstn n (argsort distances))) = Ok recs /\
    mapM (fun di =>
            l <- label_at (index data) (snd di) ;;
            Ok {| title := l; similarity_score := (1 - fst di)%Q |})
         (tl (firstn n (argsort distances))) = Ok recs.
Proof.
  intros Hlen. unfold recommendations_of.
  rewrite !tl_map, combine_fst_snd.
  destruct (mapM_ok
              (fun di : Q * nat =>
                 l <- label_at (index data) (snd di) ;;
                 Ok {| title := l; similarity_score := (1 - fst di)%Q |})
              (tl (firstn n (argsort distances)))) as [recs Hrecs].
  - intros di Hin. apply nearest_positions_valid in Hin.
    unfold label_at. destruct (nth_error (index data) (snd di)) eqn:E.
    + simpl. eauto.
    + apply nth_error_None in E. lia.
  - exists recs. auto.
Qed.

Lemma occurrences_In (labels : list (option string)) (t : string) :
  1 <= occurrences labels t -> In (Some t) labels.
Proof.
  unfold occurrences, get_loc. intros H.
  destruct (get_loc_from 0 labels t) as [|p l] eqn:E; [simpl in H; lia | ].
  assert (Hin : In p (get_loc_from 0 labels t)) by (rewrite E; now left).
  apply get_loc_from_sound in Hin. destruct Hin as [_ Hn].
  eapply nth_error_In. exact Hn.
Qed.

(** The five ways a query on a built recommender ends, each with its
    condition. *)
Lemma query_cases (cosine : list Q -> list Q -> Q) (disk : Disk)
      (bf rf : string) (mb mu : Z) (self : BookRecommender)
      (t : string) (k : Z) :
  __init__ disk bf rf mb mu = Ok self ->
  exists data,
    books_data self = Some data /\
    length (values data) = length (index data) /\
    (let occ := occurrences (index data) t in
     let rows := length (index data) in
     let ncols := length (columns data) in
     (~ In (Some t) (index data) /\
      get_recommendations cosine self t k = Raise (BookNotFound t)) \/
     (In (Some t) (index data) /\ (k < 0)%Z /\
      get_recommendations cosine self t k
      = Raise (NonPositiveNeighbors (k + 1))) \/
     (2 <= occ /\ (0 <= k)%Z /\
      get_recommendations cosine self t k
      = Raise (FeatureMismatch (occ * ncols) ncols)) \/
     (occ = 1 /\ (Z.of_nat rows <= k)%Z /\
      get_recommendations cosine self t k
      = Raise (TooManyNeighbors (k + 1) rows)) \/
     (occ = 1 /\ (0 <= k < Z.of_nat rows)%Z /\
      exists recs,
        get_recommendations cosine self t k = Ok recs /\
        mapM (fun di =>
                l <- label_at (index data) (snd di) ;;
                Ok {| title := l; similarity_score := (1 - fst di)%Q |})
             (tl (firstn (Z.to_nat (k + 1))
                         (argsort
                            (map (cosine (iloc_reshape data
                                            (get_loc (index data) t)))
                                 (values data)))))
        = Ok recs)).
Proof.
  intros H.
  destruct (built_recommender _ _ _ _ _ H)
    as [data [Hd [Hm [Hlen [Hrows [Hr Hc]]]]]].
  exists data. split; [exact Hd | ]. split; [exact Hlen | ]. cbv zeta.
  unfold get_recommendations. rewrite Hm, Hd.
  destruct (contains (index data) t) eqn:Hin; simpl negb; cbv iota.
  2:{ left. split; [ | reflexivity]. intros Hi.
      apply contains_In in Hi. congruence. }
  right. pose proof (occurrences_pos _ _ Hin) as Hocc.
  apply contains_In in Hin.
  pose proof (query_row_length data t Hlen Hrows) as HX.
  destruct (kneighbors_cases cosine
              {| fit_X := values data;
                 n_samples_fit := length (index data);
                 n_features_in := length (columns data) |}
              (iloc_reshape data (get_loc (index data) t)) (k + 1))
    as [[Hk E] | [[Hk [Hf E]] | [[Hk [Hf [Hs E]]] | [Hk [Hf [Hs E]]]]]];
    simpl in *; rewrite E; simpl.
  - left. repeat split; [exact Hin | lia].
  - right. left. rewrite HX in *. repeat split; [ | lia].
    destruct (Nat.eq_dec (occurrences (index data) t) 1) as [E1|E1]; [ | lia].
    rewrite E1 in Hf. lia.
  - right. right. left.
    assert (occurrences (index data) t = 1) by (rewrite HX in Hf; nia).
    repeat split; [assumption | lia].
  - right. right. right.
    assert (occurrences (index data) t = 1) by (rewrite HX in Hf; nia).
    split; [assumption | ]. split; [lia | ].
    apply recommendations_of_nearest. now rewrite length_map.
Qed.

(** A query that returns has found the title on exactly one row, was
    asked for a number of recommendations from 0 to the number of rows
    less one, and returns exactly that many: never fewer, never more. *)
Theorem query_returns_exactly_k :
  forall (cosine : list Q -> list Q -> Q) (disk : Disk)
         (books_file ratings_file : string) (mb mu : Z)
         (self : BookRecommender) (t : string) (k : Z)
         (recs : list BookRecommendation),
    __init__ disk books_file ratings_file mb mu = Ok self ->
    get_recommendations cosine self t k = Ok recs ->
    exists data,
      books_data self = Some data /\
      occurrences (index data) t = 1 /\
      (0 <= k < Z.of_nat (length (index data)))%Z /\
      length recs = Z.to_nat k.
Proof.
  intros cosine disk bf rf mb mu self t k recs H Hq.
  destruct (@query_cases cosine disk bf rf mb mu self t k H) as [data [Hd [Hlen Hcases]]].
  exists data. split; [exact Hd | ]. cbv zeta in Hcases.
  destruct Hcases
    as [[_ E] | [[_ [_ E]] | [[_ [_ E]] | [[_ [_ E]] | [Hocc [Hk [r [E Hr]]]]]]]];
    try congruence.
  split; [exact Hocc | ]. split; [exact Hk | ].
  assert (r = recs) by congruence. subst r.
  rewrite (mapM_length _ _ Hr), length_tl, length_firstn, argsort_length,
    length_map, Hlen. lia.
Qed.

Lemma query_returns_exactly_k_witness :
  exists data,
    books_data shelf_recommender = Some data /\
    occurrences (index data) "A" = 1 /\
    (0 <= 2 < Z.of_nat (length (index data)))%Z /\
    length shelf_answer = Z.to_nat 2.
Proof.
  apply (@query_returns_exactly_k cosine_distance (disk_of shelf shelf_ratings)
           "books.csv" "ratings.csv" 0%Z 0%Z shelf_recommender "A" 2%Z
           shelf_answer); vm_compute; reflexivity.
Defined.

(** Every way a query on a built recommender fails, each with its
    condition: the title labels no row; a negative number of
    recommendations is asked for; the title labels several rows; as many
    recommendations as there are rows, or more, are asked for.  No other
    error is raised: the positions the search returns always have a
    label. *)
Theorem query_failure_modes :
  forall (cosine : list Q -> list Q -> Q) (disk : Disk)
         (books_file ratings_file : string) (mb mu : Z)
         (self : BookRecommender) (t : string) (k : Z) (e : exn),
    __init__ disk books_file ratings_file mb mu = Ok self ->
    get_recommendations cosine self t k = Raise e ->
    exists data,
      books_data self = Some data /\
      ((~ In (Some t) (index data) /\ e = BookNotFound t) \/
       (In (Some t) (index data) /\ (k < 0)%Z /\
        e = NonPositiveNeighbors (k + 1)) \/
       (2 <= occurrences (index data) t /\ (0 <= k)%Z /\
        e = FeatureMismatch
              (occurrences (index data) t * length (columns data))
              (length (columns data))) \/
       (occurrences (index data) t = 1 /\
        (Z.of_nat (length (index data)) <= k)%Z /\
        e = TooManyNeighbors (k + 1) (length (index data)))).
Proof.
  intros cosine disk bf rf mb mu self t k e H Hq.
  destruct (@query_cases cosine disk bf rf mb mu self t k H) as [data [Hd [_ Hcases]]].
  exists data. split; [exact Hd | ]. cbv zeta in Hcases.
  destruct Hcases
    as [[C E] | [[C [C' E]] | [[C [C' E]] | [[C [C' E]] | [_ [_ [r [E _]]]]]]]];
    rewrite E in Hq; inversion Hq; subst; auto 10.
Qed.

Lemma query_failure_modes_witness :
  exists data,
    books_data twin_recommender = Some data /\
    ((~ In (Some "B"%string) (index data) /\
      NonPositiveNeighbors (-1 + 1) = BookNotFound "B") \/
     (In (Some "B"%string) (index data) /\ (-1 < 0)%Z /\
      NonPositiveNeighbors (-1 + 1) = NonPositiveNeighbors (-1 + 1)) \/
     (2 <= occurrences (index data) "B" /\ (0 <= -1)%Z /\
      NonPositiveNeighbors (-1 + 1)
      = FeatureMismatch
          (occurrences (index data) "B" * length (columns data))
          (length (columns data))) \/
     (occurrences (index data) "B" = 1 /\
      (Z.of_nat (length (index data)) <= -1)%Z /\
      NonPositiveNeighbors (-1 + 1)
      = TooManyNeighbors (-1 + 1) (length (index data)))).
Proof.
  apply (@query_failure_modes cosine_distance (disk_of twins twin_ratings)
           "books.csv" "ratings.csv" 0%Z 0%Z twin_recommender "B" (-1)%Z);
    vm_compute; reflexivity.
Defined.

(** A title that labels several rows cannot be queried: the rows are
    sent to the search side by side, as one row too wide, and the search
    refuses it. *)
Theorem shared_title_cannot_be_queried :
  forall (cosine : list Q -> list Q -> Q) (disk : Disk)
         (books_file ratings_file : string) (mb mu : Z)
         (self : BookRecommender) (data : DataFrame (option string) Z Q)
         (t : string) (k : Z),
    __init__ disk books_file ratings_file mb mu = Ok self ->
    books_data self = Some data ->
    2 <= occurrences (index data) t ->
    (0 <= k)%Z ->
    get_recommendations cosine self t k
    = Raise (FeatureMismatch
               (occurrences (index data) t * length (columns data))
               (length (columns data))).
Proof.
  intros cosine disk bf rf mb mu self data t k H Hd Hocc Hk.
  destruct (@query_cases cosine disk bf rf mb mu self t k H)
    as [data' [Hd' [_ Hcases]]].
  assert (data' = data) by congruence. subst data'. cbv zeta in Hcases.
  destruct Hcases
    as [[C E] | [[_ [C E]] | [[_ [_ E]] | [[C _] | [C _]]]]];
    try lia; try exact E.
  exfalso. apply C. apply occurrences_In. lia.
Qed.

Lemma shared_title_cannot_be_queried_witness :
  get_recommendations cosine_distance namesake_recommender "Same" 1
  = Raise (FeatureMismatch 2 1).
Proof.
  apply (@shared_title_cannot_be_queried cosine_distance
           (disk_of namesakes namesake_ratings) "books.csv" "ratings.csv"
           0%Z 0%Z namesake_recommender
           {| index := [Some "Same"%string; Some "Same"%string];
              columns := [1%Z];
              values := [[3]; [4]]%Q |} "Same" 1%Z).
  - vm_compute. reflexivity.
  - reflexivity.
  - vm_compute. lia.
  - lia.
Defined.

(** ** Which rows a query recommends *)

Lemma in_combine_seq (A : Type) (l : list A) (s : nat) (d : A) (i : nat) :
  In (d, i) (combine l (seq s (length l))) <->
  s <= i /\ nth_error l (i - s) = Some d.
Proof.
  revert s. induction l as [|a l IH]; intros s; simpl.
  - split; [contradiction | ]. intros [_ H]. destruct (i - s); discriminate.
  - rewrite IH. split.
    + intros [H | [Hle Hn]].
      * inversion H; subst. rewrite Nat.sub_diag. simpl. auto.
      * split; [lia | ]. replace (i - s) with (S (i - S s)) by lia. exact Hn.
    + intros [Hle Hn]. destruct (Nat.eq_dec i s) as [E|E].
      * subst i. rewrite Nat.sub_diag in Hn. simpl in Hn.
        inversion Hn. now left.
      * right. split; [lia | ].
        replace (i - s) with (S (i - S s)) in Hn by lia. exact Hn.
Qed.

Lemma argsort_In (distances : list Q) (d : Q) (i : nat) :
  In (d, i) (argsort distances) <-> nth_error distances i = Some d.
Proof.
  unfold argsort. rewrite insertion_sort_In, in_combine_seq, Nat.sub_0_r.
  split; [tauto | ]. intros H. split; [lia | exact H].
Qed.

Lemma map_snd_combine_seq (A : Type) (l : list A) (s : nat) :
  map snd (combine l (seq s (length l))) = seq s (length l).
Proof.
  revert s. induction l as [|a l IH]; intros s; simpl;
    [reflexivity | now rewrite IH].
Qed.

Lemma argsort_positions_NoDup (distances : list Q) :
  NoDup (map snd (argsort distances)).
Proof.
  unfold argsort.
  eapply Permutation_NoDup.
  - apply Permutation_map. apply Permutation_sym. apply insertion_sort_perm.
  - rewrite map_snd_combine_seq. apply seq_NoDup.
Qed.

Lemma StronglySorted_app_le (A : Type) (R : A -> A -> Prop) (l1 l2 : list A) :
  StronglySorted R (l1 ++ l2) ->
  forall x y, In x l1 -> In y l2 -> R x y.
Proof.
  induction l1 as [|a l1 IH]; simpl; intros H x y Hx Hy; [contradiction | ].
  apply StronglySorted_inv in H. destruct H as [Hs Hall].
  destruct Hx as [Hx | Hx].
  - subst a. rewrite Forall_forall in Hall. apply Hall.
    apply in_or_app. now right.
  - eapply IH; eassumption.
Qed.

Lemma mapM_Forall2 (A B : Type) (f : A -> result B) (l : list A) (bs : list B) :
  mapM f l = Ok bs -> Forall2 (fun a b => f a = Ok b) l bs.
Proof.
  revert bs. induction l as [|a l IH]; simpl; intros bs H.
  - inversion H. constructor.
  - destruct (f a) as [b|e] eqn:Ha; simpl in H; [ | discriminate].
    destruct (mapM f l) as [bs'|e]; simpl in H; [ | discriminate].
    inversion H; subst. constructor; [exact Ha | apply IH; reflexivity].
Qed.

Lemma Forall2_map_in (A B C : Type) (g : A -> C) (R : A -> B -> Prop)
      (S : C -> B -> Prop) (l : list A) (bs : list B) :
  (forall a b, In a l -> R a b -> S (g a) b) ->
  Forall2 R l bs -> Forall2 S (map g l) bs.
Proof.
  intros H F. induction F as [|a b l bs Hab _ IH]; simpl; constructor.
  - apply H; [now left | exact Hab].
  - apply IH. intros a' b' Hin. apply H. now right.
Qed.

(** The recommendations are rows of the matrix, the nearest ones.  With
    the row the query skips, they stand at pairwise distinct positions;
    each carries the label of its row and one minus the distance from
    the query row to its row; and every row at another position is at
    least as far from the query row as each of them. *)
Theorem recommendations_are_nearest_rows :
  forall (cosine : list Q -> list Q -> Q) (disk : Disk)
         (books_file ratings_file : string) (mb mu : Z)
         (self : BookRecommender) (t : string) (k : Z)
         (recs : list BookRecommendation),
    __init__ disk books_file ratings_file mb mu = Ok self ->
    get_recommendations cosine self t k = Ok recs ->
    exists data skipped positions,
      books_data self = Some data /\
      NoDup (skipped :: positions) /\
      Forall2
        (fun p rec =>
           exists row,
             nth_error (index data) p = Some (title rec) /\
             nth_error (values data) p = Some row /\
             similarity_score rec
             = (1 - cosine (iloc_reshape data (get_loc (index data) t)) row)%Q)
        positions recs /\
      forall p row rec,
        nth_error (values data) p = Some row ->
        ~ In p (skipped :: positions) ->
        In rec recs ->
        (1 - cosine (iloc_reshape data (get_loc (index data) t)) row
         <= similarity_score rec)%Q.
Proof.
  intros cosine disk bf rf mb mu self t k recs H Hq.
  destruct (@query_cases cosine disk bf rf mb mu self t k H)
    as [data [Hd [Hlen Hcases]]].
  cbv zeta in Hcases.
  destruct Hcases
    as [[_ E] | [[_ [_ E]] | [[_ [_ E]] | [[_ [_ E]] | [Hocc [Hk [r [E Hr]]]]]]]];
    try congruence.
  assert (r = recs) by congruence. subst r. clear E.
  set (query := iloc_reshape data (get_loc (index data) t)) in *.
  set (A := argsort (map (cosine query) (values data))) in *.
  assert (Hn : Z.to_nat (k + 1) = S (Z.to_nat k)) by lia.
  rewrite Hn in Hr.
  assert (HA : length A = length (index data)).
  { unfold A. now rewrite argsort_length, length_map. }
  destruct A as [|h A'] eqn:EA; [simpl in HA; lia | ].
  simpl in Hr.
  assert (Hnd : NoDup (map snd (h :: A'))).
  { rewrite <- EA. apply argsort_positions_NoDup. }
  assert (Hsorted : StronglySorted (fun a b => (fst a <= fst b)%Q) (h :: A')).
  { rewrite <- EA. apply argsort_sorted. }
  assert (Hrow : forall di, In di (h :: A') ->
                   exists row, nth_error (values data) (snd di) = Some row /\
                               fst di = cosine query row).
  { intros [d i] Hin. rewrite <- EA in Hin. apply argsort_In in Hin.
    rewrite nth_error_map in Hin. simpl.
    destruct (nth_error (values data) i) as [row|]; [ | discriminate].
    inversion Hin. eauto. }
  exists data, (snd h), (map snd (firstn (Z.to_nat k) A')).
  split; [exact Hd | ]. split; [ | split].
  - simpl in Hnd. inversion Hnd as [|? ? Hnin Hnd']; subst.
    constructor.
    + intros Hin. apply Hnin. apply in_map_iff in Hin.
      destruct Hin as [di [Hdi Hin]]. apply in_map_iff. exists di.
      split; [exact Hdi | eapply firstn_In; exact Hin].
    + rewrite <- firstn_map. rewrite <- (firstn_skipn (Z.to_nat k)) in Hnd'.
      eapply NoDup_app_remove_r. exact Hnd'.
  - eapply Forall2_map_in; [ | apply mapM_Forall2; exact Hr].
    intros di rec Hin Hf. simpl in Hf.
    destruct (Hrow di) as [row [Hv Hdist]];
      [right; eapply firstn_In; exact Hin | ].
    unfold label_at in Hf.
    destruct (nth_error (index data) (snd di)) as [l|] eqn:El;
      simpl in Hf; [ | discriminate].
    inversion Hf; subst rec. simpl. exists row.
    rewrite Hdist. auto.
  - intros p row rec Hv Hout Hin.
    assert (Hscore : exists di, In di (firstn (Z.to_nat k) A') /\
                                similarity_score rec = (1 - fst di)%Q).
    { apply mapM_scores in Hr.
      assert (Hs : In (similarity_score rec) (map similarity_score recs))
        by (apply in_map; exact Hin).
      rewrite Hr in Hs. apply in_map_iff in Hs.
      destruct Hs as [di [Hs Hdi]]. eauto. }
    destruct Hscore as [di [Hdi Hscore]]. rewrite Hscore.
    assert (HpA : In (cosine query row, p) (h :: A')).
    { rewrite <- EA. apply argsort_In. rewrite nth_error_map, Hv. reflexivity. }
    assert (Hlate : In (cosine query row, p) (skipn (Z.to_nat k) A')).
    { destruct HpA as [Hp | Hp].
      - exfalso. apply Hout. left. rewrite Hp. reflexivity.
      - rewrite <- (firstn_skipn (Z.to_nat k) A') in Hp.
        apply in_app_or in Hp. destruct Hp as [Hp | Hp]; [ | exact Hp].
        exfalso. apply Hout. right. apply in_map_iff.
        exists (cosine query row, p). auto. }
    apply StronglySorted_inv in Hsorted. destruct Hsorted as [Hsorted _].
    rewrite <- (firstn_skipn (Z.to_nat k) A') in Hsorted.
    pose proof (StronglySorted_app_le _ _ Hsorted _ _ Hdi Hlate) as Hle.
    simpl in Hle. unfold Qminus. apply Qplus_le_r. apply Qopp_le_compat.
    exact Hle.
Qed.

Lemma recommendations_are_nearest_rows_witness :
  exists data skipped positions,
    books_data shelf_recommender = Some data /\
    NoDup (skipped :: positions) /\
    Forall2
      (fun p rec =>
         exists row,
           nth_error (index data) p = Some (title rec) /\
           nth_error (values data) p = Some row /\
           similarity_score rec
           = (1 - cosine_distance
                    (iloc_reshape data (get_loc (index data) "A")) row)%Q)
      positions shelf_answer /\
    forall p row rec,
      nth_error (values data) p = Some row ->
      ~ In p (skipped :: positions) ->
      In rec shelf_answer ->
      (1 - cosine_distance (iloc_reshape data (get_loc (index data) "A")) row
       <= similarity_score rec)%Q.
Proof.
  apply (@recommendations_are_nearest_rows cosine_distance
           (disk_of shelf shelf_ratings) "books.csv" "ratings.csv" 0%Z 0%Z
           shelf_recommender "A" 2%Z shelf_answer);
    vm_compute; reflexivity.
Defined.

(** When every other row is strictly farther from the query row than the
    query row is from itself, the search lists the query row first, the
    query skips it, and no recommendation carries the title asked for. *)
Theorem strictly_nearest_query_row_is_left_out :
  forall (cosine : list Q -> list Q -> Q) (disk : Disk)
         (books_file ratings_file : string) (mb mu : Z)
         (self : BookRecommender) (data : DataFrame (option string) Z Q)
         (t : string) (k : Z) (recs : list BookRecommendation)
         (p : nat) (query : list Q),
    __init__ disk books_file ratings_file mb mu = Ok self ->
    books_data self = Some data ->
    get_loc (index data) t = [p] ->
    nth_error (values data) p = Some query ->
    (forall j row, j <> p -> nth_error (values data) j = Some row ->
                   (cosine query query < cosine query row)%Q) ->
    get_recommendations cosine self t k = Ok recs ->
    Forall (fun rec => title rec <> Some t) recs.
Proof.
  intros cosine disk bf rf mb mu self data t k recs p query
         H Hd Hloc Hp Hfar Hq.
  apply Forall_forall. intros rec Hin Htitle.
  destruct (@query_cases cosine disk bf rf mb mu self t k H)
    as [data' [Hd' [Hlen Hcases]]].
  assert (data' = data) by congruence. subst data'. cbv zeta in Hcases.
  destruct Hcases
    as [[_ E] | [[_ [_ E]] | [[_ [_ E]] | [[_ [_ E]] | [Hocc [Hk [r [E Hr]]]]]]]];
    try congruence.
  assert (r = recs) by congruence. subst r. clear E.
  assert (Hquery : iloc_reshape data (get_loc (index data) t) = query).
  { rewrite Hloc. unfold iloc_reshape. simpl. rewrite app_nil_r.
    apply nth_error_nth. exact Hp. }
  rewrite Hquery in Hr.
  set (A := argsort (map (cosine query) (values data))) in *.
  assert (Hn : Z.to_nat (k + 1) = S (Z.to_nat k)) by lia.
  rewrite Hn in Hr.
  assert (HpA : In (cosine query query, p) A).
  { apply argsort_In. rewrite nth_error_map, Hp. reflexivity. }
  assert (Hnd : NoDup (map snd A)) by apply argsort_positions_NoDup.
  assert (Hsorted : StronglySorted (fun a b => (fst a <= fst b)%Q) A)
    by apply argsort_sorted.
  assert (Hrow : forall di, In di A ->
                   exists row, nth_error (values data) (snd di) = Some row /\
                               fst di = cosine query row).
  { intros [d i] Hdi. apply argsort_In in Hdi.
    rewrite nth_error_map in Hdi. simpl.
    destruct (nth_error (values data) i) as [row|]; [ | discriminate].
    inversion Hdi. eauto. }
  destruct A as [|h A'] eqn:EA; [contradiction | ]. simpl in Hr.
  (* the first neighbor is the query row *)
  assert (Hfirst : snd h = p).
  { destruct (Nat.eq_dec (snd h) p) as [E|E]; [exact E | exfalso].
    destruct HpA as [Hh | Hrest]; [subst h; simpl in E; congruence | ].
    apply StronglySorted_inv in Hsorted. destruct Hsorted as [_ Hall].
    rewrite Forall_forall in Hall. specialize (Hall _ Hrest). simpl in Hall.
    destruct (Hrow h (or_introl eq_refl)) as [row [Hv Hdist]].
    pose proof (Hfar _ _ E Hv) as Hlt. rewrite <- Hdist in Hlt.
    exact (Qlt_not_le _ _ Hlt Hall). }
  (* the recommendation comes from a later neighbor *)
  pose proof (mapM_Forall2 _ _ Hr) as F2.
  assert (Hsrc : exists di, In di (firstn (Z.to_nat k) A') /\
                            label_at (index data) (snd di) = Ok (title rec)).
  { clear - F2 Hin. induction F2 as [|di b l bs Hf _ IH]; [contradiction | ].
    destruct Hin as [Hb | Hin].
    - subst b. exists di. split; [now left | ].
      destruct (label_at (index data) (snd di)); simpl in Hf;
        inversion Hf. reflexivity.
    - destruct (IH Hin) as [di' [Hdi' Hl]]. exists di'. split; [now right | exact Hl]. }
  destruct Hsrc as [di [Hdi Hl]].
  unfold label_at in Hl.
  destruct (nth_error (index data) (snd di)) as [l|] eqn:El;
    inversion Hl; subst l.
  rewrite Htitle in El. apply (get_loc_from_complete 0) in El.
  fold (get_loc (index data) t) in El. rewrite Hloc in El. simpl in El.
  destruct El as [El | []].
  simpl in Hnd. apply NoDup_cons_iff in Hnd. destruct Hnd as [Hnin _].
  apply Hnin. rewrite Hfirst, El. apply in_map.
  eapply firstn_In. exact Hdi.
Qed.

Lemma strictly_nearest_query_row_is_left_out_witness :
  Forall (fun rec => title rec <> Some "C"%string)
         [ {| title := Some "A"%string;
              similarity_score := 12884901888 # 151850024995 |} ].
Proof.
  apply (@strictly_nearest_query_row_is_left_out cosine_distance
           (disk_of shelf shelf_ratings) "books.csv" "ratings.csv" 0%Z 0%Z
           shelf_recommender shelf_matrix "C" 1%Z
           [ {| title := Some "A"%string;
                similarity_score := 12884901888 # 151850024995 |} ]
           2 [1; 0; 7]%Q).
  - vm_compute. reflexivity.
  - reflexivity.
  - reflexivity.
  - reflexivity.
  - intros [|[|[|j]]] row Hj Hrow; simpl in Hrow;
      try (inversion Hrow; subst row; vm_compute; reflexivity).
    + congruence.
    + destruct j; discriminate.
  - vm_compute. reflexivity.
Defined.

(** ** The demonstration *)

(** When [main] returns it has printed the heading for "Jewel" and then
    exactly five lines, numbered from 1 to 5 in the order of the
    recommendations. *)
Theorem main_prints_five_numbered_lines :
  forall (cosine : list Q -> list Q -> Q) (disk : Disk) (out : list printed),
    main cosine disk = Ok out ->
    exists self r1 r2 r3 r4 r5,
      __init__ disk "dataset_books/BX-Books.csv"
               "dataset_books/BX-Book-Ratings.csv" 100 10 = Ok self /\
      get_recommendations cosine self "Jewel" 5 = Ok [r1; r2; r3; r4; r5] /\
      out = [Heading "Jewel";
             Numbered 1 (title r1) (similarity_score r1);
             Numbered 2 (title r2) (similarity_score r2);
             Numbered 3 (title r3) (similarity_score r3);
             Numbered 4 (title r4) (similarity_score r4);
             Numbered 5 (title r5) (similarity_score r5)].
Proof.
  intros cosine disk out. unfold main.
  destruct (__init__ disk "dataset_books/BX-Books.csv"
                     "dataset_books/BX-Book-Ratings.csv" 100 10)
    as [self|e] eqn:Hi; simpl; [ | discriminate].
  destruct (get_recommendations cosine self "Jewel" 5) as [recs|e] eqn:Hq;
    simpl; [ | discriminate].
  intros Hout. inversion Hout; subst out. clear Hout.
  destruct (@query_cases cosine _ _ _ _ _ self "Jewel"%string 5%Z Hi)
    as [data [Hd [Hlen Hcases]]].
  cbv zeta in Hcases.
  destruct Hcases
    as [[_ E] | [[_ [_ E]] | [[_ [_ E]] | [[_ [_ E]] | [_ [Hk [r [E Hr]]]]]]]];
    try congruence.
  assert (r = recs) by congruence. subst r.
  assert (Hfive : length recs = 5).
  { rewrite (mapM_length _ _ Hr), length_tl, length_firstn, argsort_length,
      length_map, Hlen. lia. }
  destruct recs as [|r1 [|r2 [|r3 [|r4 [|r5 [|r6 recs]]]]]]; try discriminate.
  exists self, r1, r2, r3, r4, r5.
  split; [reflexivity | ]. split; [exact Hq | reflexivity].
Qed.

Lemma main_prints_five_numbered_lines_witness :
  exists self r1 r2 r3 r4 r5,
    __init__ demo_disk "dataset_books/BX-Books.csv"
             "dataset_books/BX-Book-Ratings.csv" 100 10 = Ok self /\
    get_recommendations cosine_distance self "Jewel" 5
    = Ok [r1; r2; r3; r4; r5] /\
    demo_output
    = [Heading "Jewel";
       Numbered 1 (title r1) (similarity_score r1);
       Numbered 2 (title r2) (similarity_score r2);
       Numbered 3 (title r3) (similarity_score r3);
       Numbered 4 (title r4) (similarity_score r4);
       Numbered 5 (title r5) (similarity_score r5)].
Proof.
  apply (@main_prints_five_numbered_lines cosine_distance demo_disk demo_output).
  vm_compute. reflexivity.
Defined.

(** When [main] fails, either the constructor failed, with the same
    error, or the query did: no row is titled "Jewel", several rows are,
    or the matrix has fewer than six rows. *)
Theorem main_failure_modes :
  forall (cosine : list Q -> list Q -> Q) (disk : Disk) (e : exn),
    main cosine disk = Raise e ->
    __init__ disk "dataset_books/BX-Books.csv"
             "dataset_books/BX-Book-Ratings.csv" 100 10 = Raise e \/
    exists self data,
      __init__ disk "dataset_books/BX-Books.csv"
               "dataset_books/BX-Book-Ratings.csv" 100 10 = Ok self /\
      books_data self = Some data /\
      ((~ In (Some "Jewel"%string) (index data) /\ e = BookNotFound "Jewel") \/
       (2 <= occurrences (index data) "Jewel" /\
        e = FeatureMismatch
              (occurrences (index data) "Jewel" * length (columns data))
              (length (columns data))) \/
       (occurrences (index data) "Jewel" = 1 /\
        length (index data) < 6 /\
        e = TooManyNeighbors 6 (length (index data)))).
Proof.
  intros cosine disk e. unfold main.
  destruct (__init__ disk "dataset_books/BX-Books.csv"
                     "dataset_books/BX-Book-Ratings.csv" 100 10)
    as [self|e'] eqn:Hi; simpl; [ | intros H; left; congruence].
  destruct (get_recommendations cosine self "Jewel" 5) as [recs|e'] eqn:Hq;
    simpl; [discriminate | ].
  intros H. inversion H; subst e'. clear H. right.
  destruct (@query_cases cosine _ _ _ _ _ self "Jewel"%string 5%Z Hi)
    as [data [Hd [_ Hcases]]].
  exists self, data. split; [reflexivity | ]. split; [exact Hd | ].
  cbv zeta in Hcases.
  destruct Hcases
    as [[C E] | [[_ [C E]] | [[C [_ E]] | [[C [C' E]] | [_ [_ [r [E _]]]]]]]];
    rewrite E in Hq; inversion Hq; subst.
  - left. auto.
  - lia.
  - right. left. auto.
  - right. right. split; [exact C | ]. split; [lia | reflexivity].
Qed.

Lemma main_failure_modes_witness :
  __init__ (disk_of shelf shelf_ratings) "dataset_books/BX-Books.csv"
           "dataset_books/BX-Book-Ratings.csv" 100 10
  = Raise (FileNotFoundError "dataset_books/BX-Books.csv") \/
  exists self data,
    __init__ (disk_of shelf shelf_ratings) "dataset_books/BX-Books.csv"
             "dataset_books/BX-Book-Ratings.csv" 100 10 = Ok self /\
    books_data self = Some data /\
    ((~ In (Some "Jewel"%string) (index data) /\
      FileNotFoundError "dataset_books/BX-Books.csv" = BookNotFound "Jewel") \/
     (2 <= occurrences (index data) "Jewel" /\
      FileNotFoundError "dataset_books/BX-Books.csv"
      = FeatureMismatch
          (occurrences (index data) "Jewel" * length (columns data))
          (length (columns data))) \/
     (occurrences (index data) "Jewel" = 1 /\
      length (index data) < 6 /\
      FileNotFoundError "dataset_books/BX-Books.csv"
      = TooManyNeighbors 6 (length (index data)))).
Proof.
  apply (@main_failure_modes cosine_distance (disk_of shelf shelf_ratings)).
  reflexivity.
Defined.
